(** * Ecommerce API backend (src/main.py, src/schemas.py): request/document mapper

    Shallow embedding of the FastAPI handlers of [src/main.py] over an
    explicit model of the document store reached through the optional
    handle [db].  Documents are Python dicts, modelled as association
    lists whose keys are kept in insertion order; values are the
    JSON/BSON values that flow through the handlers. *)

From Stdlib Require Import String Ascii List ZArith QArith Bool Lia.
From Stdlib Require Import Strings.Byte Numbers.DecimalString Sorting.Sorted Sorting.Permutation.
Import ListNotations.
Open Scope string_scope.
Open Scope nat_scope.
#[local] Set Warnings "-register-all".

(** ** Values and documents *)

(** A store identifier (bson [ObjectId]): its raw bytes. *)
Inductive oid : Type := Oid (bytes : list byte).

(** JSON/BSON values.  Numbers (Python [int] and [float]) are kept as
    exact rationals: the handlers only compare them. *)
Inductive value : Type :=
| VNull
| VBool (b : bool)
| VNum (q : Q)
| VStr (s : string)
| VOid (o : oid)
| VList (l : list value)
| VDoc (d : list (string * value)).

(** A Python dict with string keys. *)
Definition doc := list (string * value).

(** [d.get(k)] *)
Fixpoint dict_get (k : string) (d : doc) : option value :=
  match d with
  | [] => None
  | (k', v) :: r => if String.eqb k k' then Some v else dict_get k r
  end.

(** [d.pop(k)] on a key that is present: the entry is removed. *)
Fixpoint dict_pop (k : string) (d : doc) : doc :=
  match d with
  | [] => []
  | (k', v) :: r => if String.eqb k k' then r else (k', v) :: dict_pop k r
  end.

(** [d[k] = v]: an existing key keeps its position, a new key is appended. *)
Fixpoint dict_set (k : string) (v : value) (d : doc) : doc :=
  match d with
  | [] => [(k, v)]
  | (k', v') :: r => if String.eqb k k' then (k, v) :: r else (k', v') :: dict_set k v r
  end.

(** [d.get(k, default)] *)
Definition dict_get_default (k : string) (d : doc) (dflt : value) : value :=
  match dict_get k d with Some v => v | None => dflt end.

(** Python truthiness.  An [ObjectId] defines neither [__bool__] nor
    [__len__], so it is always true. *)
Definition truthy (v : value) : bool :=
  match v with
  | VNull => false
  | VBool b => b
  | VNum q => negb (Qeq_bool q 0%Q)
  | VStr s => negb (String.eqb s "")
  | VOid _ => true
  | VList l => match l with [] => false | _ => true end
  | VDoc d => match d with [] => false | _ => true end
  end.

(** ** ObjectId text form *)

Definition hex_digit (n : nat) : ascii :=
  if Nat.ltb n 10 then ascii_of_nat (48 + n) else ascii_of_nat (87 + n).

Definition byte_hex (b : byte) : string :=
  let n := Byte.to_nat b in
  String (hex_digit (Nat.div n 16)) (String (hex_digit (Nat.modulo n 16)) "").

(** [str(oid)]: the bytes as lower-case hexadecimal. *)
Definition oid_str (o : oid) : string :=
  match o with Oid bs => String.concat "" (map byte_hex bs) end.

Definition hex_val (c : ascii) : option nat :=
  let n := nat_of_ascii c in
  if (Nat.leb 48 n && Nat.leb n 57)%bool then Some (n - 48)
  else if (Nat.leb 97 n && Nat.leb n 102)%bool then Some (n - 87)
  else if (Nat.leb 65 n && Nat.leb n 70)%bool then Some (n - 55)
  else None.

(** ASCII whitespace skipped by [bytes.fromhex]. *)
Definition is_ascii_ws (c : ascii) : bool :=
  let n := nat_of_ascii c in
  (Nat.eqb n 32 || (Nat.leb 9 n && Nat.leb n 13))%bool.

(** [bytes.fromhex]: pairs of hex digits, whitespace allowed between pairs. *)
Fixpoint fromhex (cs : list ascii) : option (list byte) :=
  match cs with
  | [] => Some []
  | c :: r =>
      if is_ascii_ws c then fromhex r
      else match r with
           | [] => None
           | c2 :: r' =>
               match hex_val c, hex_val c2, fromhex r' with
               | Some h, Some l, Some bs =>
                   match Byte.of_nat (16 * h + l) with
                   | Some b => Some (b :: bs)
                   | None => None
                   end
               | _, _, _ => None
               end
           end
  end.

(** [ObjectId(s)] for a string [s]: a string of length 24 decoded by
    [bytes.fromhex]; anything else raises [InvalidId] ([None]). *)
Definition parse_oid (s : string) : option oid :=
  if Nat.eqb (String.length s) 24 then
    match fromhex (list_ascii_of_string s) with
    | Some bs => Some (Oid bs)
    | None => None
    end
  else None.

(** ** PyObjectId (main.py, lines 23-34) *)

(** [ObjectId.is_valid(v)]: false for a falsy [v], otherwise whether
    [ObjectId(v)] succeeds ([InvalidId] and [TypeError] give false).  Of
    the modelled values, the constructor accepts an [ObjectId] and a
    string; every other modelled value raises [TypeError].  A 12-byte
    [bytes] value, which the constructor also accepts, has no counterpart
    in [value]. *)
Definition objectid_is_valid (v : value) : bool :=
  if negb (truthy v) then false
  else match v with
       | VOid _ => true
       | VStr s => match parse_oid s with Some _ => true | None => false end
       | _ => false
       end.

(** {v
    @classmethod
    def validate(cls, v):
        if isinstance(v, ObjectId):
            return v
        if not ObjectId.is_valid(v):
            raise ValueError("Invalid objectid")
        return ObjectId(v)
    v}
    [None] stands for the [ValueError]. *)
Definition pyobjectid_validate (v : value) : option oid :=
  match v with
  | VOid o => Some o
  | _ =>
      if negb (objectid_is_valid v) then None
      else match v with VStr s => parse_oid s | _ => None end
  end.

(** [str(v)] for the values that occur as [_id]: an [ObjectId], a
    string, a boolean or [None].  Numbers and nested values are written
    with their integer part only / a placeholder: no stored document of
    this API carries such an [_id]. *)
Definition py_str (v : value) : string :=
  match v with
  | VNull => "None"
  | VBool true => "True"
  | VBool false => "False"
  | VNum q => NilEmpty.string_of_int (Z.to_int (Z.div (Qnum q) (Zpos (Qden q))))
  | VStr s => s
  | VOid o => oid_str o
  | VList _ => "[...]"
  | VDoc _ => "{...}"
  end.

(** ** serialize_doc (main.py, lines 36-40) *)

(** {v
    def serialize_doc(doc: dict):
        if not doc:
            return doc
        doc["id"] = str(doc.pop("_id")) if doc.get("_id") else None
        return doc
    v} *)
Definition serialize_doc (d : doc) : doc :=
  if negb (truthy (VDoc d)) then d
  else match dict_get "_id" d with
       | Some v =>
           if truthy v then dict_set "id" (VStr (py_str v)) (dict_pop "_id" d)
           else dict_set "id" VNull d
       | None => dict_set "id" VNull d
       end.

(** ** The document store *)

(** The collections the handlers use, by their names in [main.py]. *)
Inductive coll : Type := CProduct | CBlogpost | COrder | CContact | CUser.

(** The live store behind a non-[None] [db]: each collection in its
    natural (insertion) order, and the source of fresh identifiers. *)
Record store : Type := mkStore {
  product : list doc;
  blogpost : list doc;
  order : list doc;
  contact : list doc;
  user : list doc;
  next_id : nat
}.

Definition get_coll (c : coll) (st : store) : list doc :=
  match c with
  | CProduct => product st
  | CBlogpost => blogpost st
  | COrder => order st
  | CContact => contact st
  | CUser => user st
  end.

Definition set_coll (c : coll) (l : list doc) (st : store) : store :=
  match c with
  | CProduct => mkStore l (blogpost st) (order st) (contact st) (user st) (next_id st)
  | CBlogpost => mkStore (product st) l (order st) (contact st) (user st) (next_id st)
  | COrder => mkStore (product st) (blogpost st) l (contact st) (user st) (next_id st)
  | CContact => mkStore (product st) (blogpost st) (order st) l (user st) (next_id st)
  | CUser => mkStore (product st) (blogpost st) (order st) (contact st) l (next_id st)
  end.

Definition byte_of (n : nat) : byte :=
  match Byte.of_nat (Nat.modulo n 256) with Some b => b | None => x00 end.

(** The [k] low-order bytes of [n], most significant first. *)
Fixpoint be_bytes (k n : nat) : list byte :=
  match k with
  | O => []
  | S k' => be_bytes k' (Nat.div n 256) ++ [byte_of n]
  end.

(** A fresh 12-byte [ObjectId]; the store's counter stands for the
    timestamp/random/counter layout of a real one. *)
Definition oid_of_nat (n : nat) : oid := Oid (be_bytes 12 n).

Definition bump (st : store) : store :=
  mkStore (product st) (blogpost st) (order st) (contact st) (user st) (S (next_id st)).

(** [db[c].insert_one(d)]: a document without [_id] gets a fresh
    [ObjectId] as its first field; the result is [inserted_id]. *)
Definition insert_one (c : coll) (d : doc) (st : store) : value * store :=
  match dict_get "_id" d with
  | Some v => (v, set_coll c (get_coll c st ++ [d]) st)
  | None =>
      let o := VOid (oid_of_nat (next_id st)) in
      (o, set_coll c (get_coll c st ++ [("_id", o) :: d]) (bump st))
  end.

(** [db[c].insert_many(ds)] *)
Fixpoint insert_many (c : coll) (ds : list doc) (st : store) : store :=
  match ds with
  | [] => st
  | d :: r => insert_many c r (snd (insert_one c d st))
  end.

(** ** Query matching of the store (the fragment the handlers use) *)

Definition ascii_lower (c : ascii) : ascii :=
  let n := nat_of_ascii c in
  if (Nat.leb 65 n && Nat.leb n 90)%bool then ascii_of_nat (n + 32) else c.

(** Regular expressions: the fragment of PCRE made of ASCII literals and
    [.]; a pattern with any other metacharacter, a non-ASCII character or
    a NUL character (which the server refuses in [$regex]) is outside the
    modelled fragment. *)
Inductive ratom : Type := RLit (c : ascii) | RAny.

Definition regex_meta (c : ascii) : bool :=
  existsb (Ascii.eqb c) (list_ascii_of_string "\^$.[|()?*+{").

Fixpoint parse_regex (cs : list ascii) : option (list ratom) :=
  match cs with
  | [] => Some []
  | c :: r =>
      match parse_regex r with
      | None => None
      | Some p =>
          if Ascii.eqb c "." then Some (RAny :: p)
          else if regex_meta c then None
          else if Nat.eqb (nat_of_ascii c) 0 then None
          else if Nat.leb 128 (nat_of_ascii c) then None
          else Some (RLit c :: p)
      end
  end.

(** [.] matches any character but a newline; option [i] folds case. *)
Definition match_atom (ci : bool) (a : ratom) (c : ascii) : bool :=
  match a with
  | RAny => negb (Ascii.eqb c "010")
  | RLit p => if ci then Ascii.eqb (ascii_lower p) (ascii_lower c) else Ascii.eqb p c
  end.

Fixpoint match_here (ci : bool) (p : list ratom) (s : list ascii) : bool :=
  match p with
  | [] => true
  | a :: p' =>
      match s with
      | [] => false
      | c :: s' => match_atom ci a c && match_here ci p' s'
      end
  end.

(** Unanchored search: a match starting at some position. *)
Fixpoint search (ci : bool) (p : list ratom) (s : list ascii) : bool :=
  match_here ci p s || match s with [] => false | _ :: s' => search ci p s' end.

(** [{"$regex": pat, "$options": opts}] on a subject string. *)
Definition regex_search (pat opts subj : string) : option bool :=
  if negb (forallb (Ascii.eqb "i") (list_ascii_of_string opts)) then None
  else match parse_regex (list_ascii_of_string pat) with
       | None => None
       | Some p => Some (search (String.eqb opts "i") p (list_ascii_of_string subj))
       end.

Definition oid_eqb (a b : oid) : bool :=
  match a, b with
  | Oid x, Oid y =>
      (Nat.eqb (length x) (length y) && forallb (fun p => Byte.eqb (fst p) (snd p)) (combine x y))%bool
  end.

(** Equality of scalar values; numbers compare by value. *)
Definition scalar_eqb (a b : value) : bool :=
  match a, b with
  | VNull, VNull => true
  | VBool x, VBool y => Bool.eqb x y
  | VNum x, VNum y => Qeq_bool x y
  | VStr x, VStr y => String.eqb x y
  | VOid x, VOid y => oid_eqb x y
  | _, _ => false
  end.

(** A test on a field holds on its value or, for an array, on one of its
    elements. *)
Definition on_field (t : value -> bool) (f : option value) : bool :=
  match f with
  | None => false
  | Some (VList l) => t (VList l) || existsb t l
  | Some v => t v
  end.

Definition is_operator_doc (d : doc) : bool :=
  match d with
  | (k, _) :: _ => String.prefix "$" k
  | [] => false
  end.

(** One operator of an operator document [ops] on field [f]. *)
Definition eval_op (ops : doc) (f : option value) (op : string * value) : option bool :=
  match op with
  | ("$gte", VNum b) =>
      Some (on_field (fun v => match v with VNum p => Qle_bool b p | _ => false end) f)
  | ("$lte", VNum b) =>
      Some (on_field (fun v => match v with VNum p => Qle_bool p b | _ => false end) f)
  | ("$regex", VStr pat) =>
      let opts := match dict_get "$options" ops with Some (VStr o) => o | _ => "" end in
      match regex_search pat opts "" with
      | None => None
      | Some _ =>
          Some (on_field (fun v => match v with
                                   | VStr s => match regex_search pat opts s with
                                               | Some b => b | None => false end
                                   | _ => false end) f)
      end
  | ("$options", VStr _) => Some true
  | _ => None
  end.

Fixpoint all_some (l : list (option bool)) : option bool :=
  match l with
  | [] => Some true
  | x :: r =>
      match x, all_some r with
      | Some b, Some c => Some (b && c)
      | _, _ => None
      end
  end.

(** A condition of a filter on field value [f] ([None]: outside the
    modelled fragment of the query language). *)
Definition cond_matches (f : option value) (c : value) : option bool :=
  match c with
  | VDoc ops =>
      if is_operator_doc ops then all_some (map (eval_op ops f) ops) else None
  | VList _ => None
  | VNull => Some (match f with None => true | Some _ => on_field (scalar_eqb VNull) f end)
  | _ => Some (on_field (scalar_eqb c) f)
  end.

(** A filter document: the conjunction of its field conditions. *)
Fixpoint doc_matches (filt : doc) (d : doc) : option bool :=
  match filt with
  | [] => Some true
  | (k, c) :: r =>
      match cond_matches (dict_get k d) c, doc_matches r d with
      | Some b1, Some b2 => Some (b1 && b2)
      | _, _ => None
      end
  end.

(** [find(filt)] in natural order. *)
Fixpoint find_docs (filt : doc) (ds : list doc) : option (list doc) :=
  match ds with
  | [] => Some []
  | d :: r =>
      match doc_matches filt d, find_docs filt r with
      | Some b, Some l => Some (if b then d :: l else l)
      | _, _ => None
      end
  end.

(** [find_one(filt)]: the first matching document, if any. *)
Definition find_one (filt : doc) (ds : list doc) : option (option doc) :=
  match find_docs filt ds with
  | Some (d :: _) => Some (Some d)
  | Some [] => Some None
  | None => None
  end.

(** ** Responses *)

(** An HTTP response: status and JSON body.  [Unmodelled] stands for a
    store answer outside the modelled fragment of its query language. *)
Inductive response : Type :=
| Resp (status : Z) (body : value)
| Unmodelled.

(** [raise HTTPException(status_code=s, detail=m)] *)
Definition http_error (s : Z) (m : string) : response :=
  Resp s (VDoc [("detail", VStr m)]).

(** FastAPI's answer to a request whose parameters or body fail the
    declared validation ([RequestValidationError]); the list of error
    entries in its body is left empty here. *)
Definition validation_error : response :=
  Resp 422 (VDoc [("detail", VList [])]).

Definition ok (v : value) : response := Resp 200 v.

Definition status_of (r : response) : option Z :=
  match r with Resp s _ => Some s | Unmodelled => None end.

(** ** Products (main.py, lines 140-184) *)

(** The query parameters of [GET /api/products], after type conversion. *)
Record product_query : Type := {
  q : option string;
  category : option string;
  min_price : option Q;
  max_price : option Q;
  min_rating : option Q;
  featured : option bool;
  limit : Z;
  skip : Z
}.

Definition q_ge0 (x : option Q) : bool :=
  match x with Some v => Qle_bool 0 v | None => true end.

(** The [Query(...)] constraints, checked by FastAPI before the handler
    runs: [min_price], [max_price] [ge=0]; [min_rating] [ge=0, le=5];
    [limit] [ge=1, le=100]; [skip] [ge=0]. *)
Definition product_query_ok (pq : product_query) : bool :=
  q_ge0 (min_price pq) && q_ge0 (max_price pq)
  && q_ge0 (min_rating pq)
  && match min_rating pq with Some r => Qle_bool r 5 | None => true end
  && (1 <=? limit pq)%Z && (limit pq <=? 100)%Z && (0 <=? skip pq)%Z.

Definition opt_truthy_str (x : option string) : option string :=
  match x with Some s => if String.eqb s "" then None else Some s | None => None end.

(** The filter [filt] built by [list_products] (lines 153-168). *)
Definition build_filter (pq : product_query) : doc :=
  let filt := [] in
  let filt := match opt_truthy_str (q pq) with
              | Some s => dict_set "title" (VDoc [("$regex", VStr s); ("$options", VStr "i")]) filt
              | None => filt end in
  let filt := match opt_truthy_str (category pq) with
              | Some c => dict_set "category" (VStr c) filt
              | None => filt end in
  let price_range := [] in
  let price_range := match min_price pq with
                     | Some a => dict_set "$gte" (VNum a) price_range
                     | None => price_range end in
  let price_range := match max_price pq with
                     | Some b => dict_set "$lte" (VNum b) price_range
                     | None => price_range end in
  let filt := match price_range with
              | [] => filt
              | _ => dict_set "price" (VDoc price_range) filt end in
  let filt := match min_rating pq with
              | Some r => dict_set "rating" (VDoc [("$gte", VNum r)]) filt
              | None => filt end in
  let filt := match featured pq with
              | Some b => dict_set "featured" (VBool b) filt
              | None => filt end in
  filt.

(** [cursor.skip(skip).limit(limit)]: a limit of 0 sets no limit, and a
    negative limit [-n] returns at most [n] documents (in one batch).  A
    negative skip, on which pymongo raises [ValueError], is refused by
    both routes ([ge=0]) before the handler runs; [Z.to_nat] reads it
    as 0. *)
Definition skip_limit (sk lim : Z) (l : list doc) : list doc :=
  let rest := skipn (Z.to_nat sk) l in
  if (lim =? 0)%Z then rest else firstn (Z.to_nat (Z.abs lim)) rest.

Definition serialize_all (l : list doc) : value :=
  VList (map (fun d => VDoc (serialize_doc d)) l).

(** The body of [list_products]. *)
Definition list_products (db : option store) (pq : product_query) : response :=
  match db with
  | None => ok (VList [])
  | Some st =>
      match find_docs (build_filter pq) (product st) with
      | Some l => ok (serialize_all (skip_limit (skip pq) (limit pq) l))
      | None => Unmodelled
      end
  end.

(** [GET /api/products]: parameter validation, then the handler. *)
Definition get_api_products (db : option store) (pq : product_query) : response :=
  if product_query_ok pq then list_products db pq else validation_error.

(** The body shared by [get_product] and [get_blog]. *)
Definition get_by_id (c : coll) (db : option store) (ident : string) : response :=
  match db with
  | None => http_error 404 "Not found"
  | Some st =>
      match parse_oid ident with
      | None => http_error 400 "Invalid id"
      | Some o =>
          match find_one [("_id", VOid o)] (get_coll c st) with
          | Some (Some d) =>
              if truthy (VDoc d) then ok (VDoc (serialize_doc d))
              else http_error 404 "Not found"
          | Some None => http_error 404 "Not found"
          | None => Unmodelled
          end
      end
  end.

(** [GET /api/products/{product_id}] *)
Definition get_product (db : option store) (product_id : string) : response :=
  get_by_id CProduct db product_id.

(** ** Blog (main.py, lines 188-205) *)

(** BSON sort order of the values used as [_id] (a missing field sorts as
    [null]); arrays and embedded documents are not ordered here. *)
Definition bson_rank (v : value) : nat :=
  match v with
  | VNull => 1 | VNum _ => 2 | VStr _ => 3 | VDoc _ => 4 | VList _ => 5
  | VOid _ => 7 | VBool _ => 8
  end.

Fixpoint bytes_cmp (a b : list byte) : comparison :=
  match a, b with
  | [], [] => Eq
  | [], _ => Lt
  | _, [] => Gt
  | x :: a', y :: b' =>
      match Nat.compare (Byte.to_nat x) (Byte.to_nat y) with
      | Eq => bytes_cmp a' b'
      | c => c
      end
  end.

Fixpoint str_cmp (a b : string) : comparison :=
  match a, b with
  | EmptyString, EmptyString => Eq
  | EmptyString, _ => Lt
  | _, EmptyString => Gt
  | String x a', String y b' =>
      match Nat.compare (nat_of_ascii x) (nat_of_ascii y) with
      | Eq => str_cmp a' b'
      | c => c
      end
  end.

Definition bson_cmp (a b : value) : comparison :=
  match a, b with
  | VNum x, VNum y => Qcompare x y
  | VStr x, VStr y => str_cmp x y
  | VOid (Oid x), VOid (Oid y) => bytes_cmp x y
  | VBool x, VBool y => Bool.compare x y
  | _, _ => Nat.compare (bson_rank a) (bson_rank b)
  end.

Definition id_key (d : doc) : value :=
  match dict_get "_id" d with Some v => v | None => VNull end.

Fixpoint insert_desc (d : doc) (l : list doc) : list doc :=
  match l with
  | [] => [d]
  | e :: r =>
      match bson_cmp (id_key d) (id_key e) with
      | Lt => e :: insert_desc d r
      | _ => d :: e :: r
      end
  end.

(** [.sort("_id", -1)] *)
Definition sort_id_desc (l : list doc) : list doc := fold_right insert_desc [] l.

(** The body of [list_blogs]. *)
Definition list_blogs (db : option store) (lim sk : Z) : response :=
  match db with
  | None => ok (VList [])
  | Some st => ok (serialize_all (skip_limit sk lim (sort_id_desc (blogpost st))))
  end.

(** [GET /api/blogs]: [limit] [ge=1, le=100], [skip] [ge=0]. *)
Definition get_api_blogs (db : option store) (lim sk : Z) : response :=
  if ((1 <=? lim) && (lim <=? 100) && (0 <=? sk))%Z then list_blogs db lim sk
  else validation_error.

(** [GET /api/blogs/{post_id}] *)
Definition get_blog (db : option store) (post_id : string) : response :=
  get_by_id CBlogpost db post_id.

(** ** Request bodies (schemas.py and the [...In] models of main.py) *)

(** Option notation for the validators. *)
Notation "'let*' x ':=' e 'in' k" :=
  (match e with Some x => k | None => None end)
  (at level 200, x name, e at level 100, k at level 200).

(** Field validators in the spirit of pydantic: a required [str] field,
    one with a default, an [Optional[str]] one, [float] and [int] from
    JSON numbers (an [int] accepts a number with no fractional part);
    pydantic's coercion of numeric strings is not modelled. *)
Definition p_str (f : option value) : option string :=
  match f with Some (VStr s) => Some s | _ => None end.

Definition p_str_default (f : option value) (dflt : string) : option string :=
  match f with None => Some dflt | Some (VStr s) => Some s | _ => None end.

Definition p_opt_str (f : option value) : option (option string) :=
  match f with
  | None | Some VNull => Some None
  | Some (VStr s) => Some (Some s)
  | _ => None
  end.

Definition p_float (f : option value) : option Q :=
  match f with Some (VNum x) => Some x | _ => None end.

Definition p_int (f : option value) : option Z :=
  match f with
  | Some (VNum x) =>
      if (Z.modulo (Qnum x) (Zpos (Qden x)) =? 0)%Z
      then Some (Z.div (Qnum x) (Zpos (Qden x))) else None
  | _ => None
  end.

(** Split a character list at every occurrence of [sep]. *)
Fixpoint split_on (sep : ascii) (cs : list ascii) : list (list ascii) :=
  match cs with
  | [] => [[]]
  | c :: r =>
      if Ascii.eqb c sep then [] :: split_on sep r
      else match split_on sep r with
           | w :: ws => (c :: w) :: ws
           | [] => [[c]]
           end
  end.

(** [EmailStr], for ASCII addresses in dot-atom form: email-validator's
    syntax check (exactly one [@]; a local part of dot-separated,
    non-empty runs of letters, digits and the characters
    [!#$%&'*+-/=?^_`{|}~]; a domain of at least two dot-separated labels
    of letters, digits and [-], neither starting nor ending with [-]),
    then its normalisation: the domain is lower-cased, the local part is
    kept.  Quoted local parts, display names ([Name <addr>]),
    internationalised addresses, length limits and special-use domains
    are not modelled. *)
Definition is_alnum (c : ascii) : bool :=
  let n := nat_of_ascii c in
  (Nat.leb 48 n && Nat.leb n 57) || (Nat.leb 65 n && Nat.leb n 90) || (Nat.leb 97 n && Nat.leb n 122).

Definition atext_char (c : ascii) : bool :=
  is_alnum c || existsb (Ascii.eqb c) (list_ascii_of_string "!#$%&'*+-/=?^_`{|}~").

Definition label_ok (w : list ascii) : bool :=
  match w with
  | [] => false
  | c :: _ =>
      forallb (fun x => is_alnum x || Ascii.eqb x "-") w
      && negb (Ascii.eqb c "-") && negb (Ascii.eqb (last w c) "-")
  end.

Definition email_ok (s : string) : bool :=
  match split_on "@" (list_ascii_of_string s) with
  | [local; domain] =>
      forallb (fun w => negb (Nat.eqb (length w) 0) && forallb atext_char w) (split_on "." local)
      && Nat.leb 2 (length (split_on "." domain)) && forallb label_ok (split_on "." domain)
  | _ => false
  end.

(** The normalised address: the domain in lower case. *)
Definition email_normalize (s : string) : string :=
  match split_on "@" (list_ascii_of_string s) with
  | [local; domain] => string_of_list_ascii (local ++ "@"%char :: map ascii_lower domain)
  | _ => s
  end.

Definition p_email (f : option value) : option string :=
  let* s := p_str f in if email_ok s then Some (email_normalize s) else None.

(** [class OrderItem(BaseModel)] *)
Record OrderItem : Type := {
  item_product_id : string;
  item_title : string;
  item_price : Q;
  item_quantity : Z;
  item_thumbnail : option string
}.

(** [class ShippingInfo(BaseModel)] *)
Record ShippingInfo : Type := {
  full_name : string;
  ship_email : string;
  phone : string;
  address : string;
  city : string;
  postal_code : string;
  country : string;
  shipping_method : string
}.

(** [class PaymentInfo(BaseModel)] *)
Record PaymentInfo : Type := {
  pay_method : string;
  pay_status : string
}.

(** [class Order(BaseModel)], the body of [POST /api/orders] ([OrderIn]). *)
Record Order : Type := {
  items : list OrderItem;
  subtotal : Q;
  shipping_cost : Q;
  total : Q;
  shipping : ShippingInfo;
  payment : PaymentInfo;
  order_status : string
}.

Definition as_doc (v : value) : option doc :=
  match v with VDoc d => Some d | _ => None end.

Fixpoint p_list {A} (p : value -> option A) (l : list value) : option (list A) :=
  match l with
  | [] => Some []
  | x :: r => let* a := p x in let* t := p_list p r in Some (a :: t)
  end.

Definition parse_order_item (v : value) : option OrderItem :=
  let* d := as_doc v in
  let* pid := p_str (dict_get "product_id" d) in
  let* ti := p_str (dict_get "title" d) in
  let* pr := p_float (dict_get "price" d) in
  let* qu := p_int (dict_get "quantity" d) in
  let* th := p_opt_str (dict_get "thumbnail" d) in
  Some (Build_OrderItem pid ti pr qu th).

Definition parse_shipping (v : value) : option ShippingInfo :=
  let* d := as_doc v in
  let* fn := p_str (dict_get "full_name" d) in
  let* em := p_email (dict_get "email" d) in
  let* ph := p_str (dict_get "phone" d) in
  let* ad := p_str (dict_get "address" d) in
  let* ci := p_str (dict_get "city" d) in
  let* pc := p_str (dict_get "postal_code" d) in
  let* co := p_str (dict_get "country" d) in
  let* sm := p_str_default (dict_get "shipping_method" d) "standard" in
  Some (Build_ShippingInfo fn em ph ad ci pc co sm).

(** [method: str = "cod"], [status: str = "pending"] *)
Definition parse_payment (v : value) : option PaymentInfo :=
  let* d := as_doc v in
  let* me := p_str_default (dict_get "method" d) "cod" in
  let* st := p_str_default (dict_get "status" d) "pending" in
  Some (Build_PaymentInfo me st).

(** Validation of an [Order] body.  [payment: PaymentInfo] has no
    default: the field is required. *)
Definition parse_order (body : value) : option Order :=
  let* d := as_doc body in
  let* its := match dict_get "items" d with
              | Some (VList l) => p_list parse_order_item l
              | _ => None end in
  let* sub := p_float (dict_get "subtotal" d) in
  let* sc := p_float (dict_get "shipping_cost" d) in
  let* tot := p_float (dict_get "total" d) in
  let* sh := match dict_get "shipping" d with Some v => parse_shipping v | None => None end in
  let* pa := match dict_get "payment" d with Some v => parse_payment v | None => None end in
  let* os := p_str_default (dict_get "status" d) "created" in
  Some (Build_Order its sub sc tot sh pa os).

Definition opt_str_value (x : option string) : value :=
  match x with Some s => VStr s | None => VNull end.

(** [model_dump()] of the order models. *)
Definition item_dump (i : OrderItem) : value :=
  VDoc [("product_id", VStr (item_product_id i)); ("title", VStr (item_title i));
        ("price", VNum (item_price i)); ("quantity", VNum (inject_Z (item_quantity i)));
        ("thumbnail", opt_str_value (item_thumbnail i))].

Definition shipping_dump (s : ShippingInfo) : value :=
  VDoc [("full_name", VStr (full_name s)); ("email", VStr (ship_email s));
        ("phone", VStr (phone s)); ("address", VStr (address s)); ("city", VStr (city s));
        ("postal_code", VStr (postal_code s)); ("country", VStr (country s));
        ("shipping_method", VStr (shipping_method s))].

Definition payment_dump (p : PaymentInfo) : value :=
  VDoc [("method", VStr (pay_method p)); ("status", VStr (pay_status p))].

Definition order_dump (o : Order) : doc :=
  [("items", VList (map item_dump (items o))); ("subtotal", VNum (subtotal o));
   ("shipping_cost", VNum (shipping_cost o)); ("total", VNum (total o));
   ("shipping", shipping_dump (shipping o)); ("payment", payment_dump (payment o));
   ("status", VStr (order_status o))].

(** ** The collection schemas of schemas.py *)

(** Fields with a default: [float], [int], [bool] and [List[str]]
    ([default_factory=list]).  A default is used only when the key is
    missing; an explicit [null] fails these types. *)
Definition p_float_default (f : option value) (dflt : Q) : option Q :=
  match f with None => Some dflt | Some (VNum x) => Some x | _ => None end.

Definition p_int_default (f : option value) (dflt : Z) : option Z :=
  match f with None => Some dflt | _ => p_int f end.

Definition p_bool_default (f : option value) (dflt : bool) : option bool :=
  match f with None => Some dflt | Some (VBool b) => Some b | _ => None end.

Definition p_str_list (f : option value) : option (list string) :=
  match f with Some (VList l) => p_list (fun x => p_str (Some x)) l | _ => None end.

Definition p_str_list_default (f : option value) : option (list string) :=
  match f with None => Some [] | _ => p_str_list f end.

(** A [ge=]/[le=] constraint of a [Field]. *)
Definition field_check (b : bool) : option unit := if b then Some tt else None.

(** [class Product(BaseModel)] *)
Record Product : Type := {
  prod_title : string;
  prod_description : string;
  prod_price : Q;
  prod_category : string;
  prod_stock : Z;
  prod_rating : Q;
  prod_images : list string;
  prod_thumbnail : option string;
  prod_featured : bool
}.

(** [price: float = Field(..., ge=0)], [stock: int = Field(0, ge=0)],
    [rating: float = Field(4.5, ge=0, le=5)]. *)
Definition parse_product (v : value) : option Product :=
  let* d := as_doc v in
  let* ti := p_str (dict_get "title" d) in
  let* de := p_str (dict_get "description" d) in
  let* pr := p_float (dict_get "price" d) in
  let* u1 := field_check (Qle_bool 0 pr) in
  let* ca := p_str (dict_get "category" d) in
  let* sto := p_int_default (dict_get "stock" d) 0 in
  let* u2 := field_check (0 <=? sto)%Z in
  let* ra := p_float_default (dict_get "rating" d) (45 # 10) in
  let* u3 := field_check (Qle_bool 0 ra && Qle_bool ra 5) in
  let* im := p_str_list_default (dict_get "images" d) in
  let* th := p_opt_str (dict_get "thumbnail" d) in
  let* fe := p_bool_default (dict_get "featured" d) false in
  Some (Build_Product ti de pr ca sto ra im th fe).

Definition product_dump (p : Product) : doc :=
  [("title", VStr (prod_title p)); ("description", VStr (prod_description p));
   ("price", VNum (prod_price p)); ("category", VStr (prod_category p));
   ("stock", VNum (inject_Z (prod_stock p))); ("rating", VNum (prod_rating p));
   ("images", VList (map VStr (prod_images p))); ("thumbnail", opt_str_value (prod_thumbnail p));
   ("featured", VBool (prod_featured p))].

(** [class BlogPost(BaseModel)] *)
Record BlogPost : Type := {
  post_title : string;
  post_excerpt : string;
  post_content : string;
  post_thumbnail : option string;
  post_author : string;
  post_tags : list string
}.

Definition parse_blogpost (v : value) : option BlogPost :=
  let* d := as_doc v in
  let* ti := p_str (dict_get "title" d) in
  let* ex := p_str (dict_get "excerpt" d) in
  let* co := p_str (dict_get "content" d) in
  let* th := p_opt_str (dict_get "thumbnail" d) in
  let* au := p_str_default (dict_get "author" d) "Admin" in
  let* ta := p_str_list_default (dict_get "tags" d) in
  Some (Build_BlogPost ti ex co th au ta).

Definition blogpost_dump (b : BlogPost) : doc :=
  [("title", VStr (post_title b)); ("excerpt", VStr (post_excerpt b));
   ("content", VStr (post_content b)); ("thumbnail", opt_str_value (post_thumbnail b));
   ("author", VStr (post_author b)); ("tags", VList (map VStr (post_tags b)))].

(** [class User(BaseModel)] *)
Record User : Type := {
  user_name : string;
  user_email : string;
  user_password : string;
  user_avatar : option string;
  user_is_active : bool
}.

Definition parse_user (v : value) : option User :=
  let* d := as_doc v in
  let* na := p_str (dict_get "name" d) in
  let* em := p_email (dict_get "email" d) in
  let* pw := p_str (dict_get "password" d) in
  let* av := p_opt_str (dict_get "avatar" d) in
  let* ac := p_bool_default (dict_get "is_active" d) true in
  Some (Build_User na em pw av ac).

Definition user_dump (u : User) : doc :=
  [("name", VStr (user_name u)); ("email", VStr (user_email u));
   ("password", VStr (user_password u)); ("avatar", opt_str_value (user_avatar u));
   ("is_active", VBool (user_is_active u))].

(** ** Orders (main.py, lines 217-226) *)

Definition default_payment : value :=
  VDoc [("method", VStr "cod"); ("status", VStr "pending")].

(** The body of [create_order]; the new store is returned with the
    response. *)
Definition create_order (db : option store) (o : Order) : response * option store :=
  match db with
  | None => (http_error 500 "Database not available", db)
  | Some st =>
      let order_dict := order_dump o in
      let order_dict := dict_set "payment" (dict_get_default "payment" order_dict default_payment) order_dict in
      let (inserted_id, st') := insert_one COrder order_dict st in
      let payment_url := "https://example-pay.test/checkout/" ++ py_str inserted_id in
      (ok (VDoc [("order_id", VStr (py_str inserted_id)); ("status", VStr "created");
                 ("payment_url", VStr payment_url)]), Some st')
  end.

(** [POST /api/orders]: body validation, then the handler. *)
Definition post_orders (db : option store) (body : value) : response * option store :=
  match parse_order body with
  | Some o => create_order db o
  | None => (validation_error, db)
  end.

(** ** create_document (database.py) *)

(** Modelled from the spec: [create_document] of database.py, which is
    not among the sources ("insert(collection, document) -> identifier";
    registration "inserts and returns the new identifier").  The document
    is inserted with a fresh identifier, returned in its string form. *)
Definition create_document (c : coll) (d : doc) (st : store) : value * store :=
  let (iid, st') := insert_one c d st in (VStr (py_str iid), st').

(** ** Contact (main.py, lines 230-240) *)

(** [class ContactIn(BaseModel)] *)
Record ContactIn : Type := { c_name : string; c_email : string; c_message : string }.

Definition contact_dump (p : ContactIn) : doc :=
  [("name", VStr (c_name p)); ("email", VStr (c_email p)); ("message", VStr (c_message p))].

Definition submit_contact (db : option store) (p : ContactIn) : response * option store :=
  match db with
  | None => (ok (VDoc [("status", VStr "received")]), db)
  | Some st =>
      let (i, st') := create_document CContact (contact_dump p) st in
      (ok (VDoc [("status", VStr "ok"); ("id", i)]), Some st')
  end.

(** ** Auth (main.py, lines 244-270) *)

(** [class RegisterIn(BaseModel)] *)
Record RegisterIn : Type := { r_name : string; r_email : string; r_password : string }.

(** [class LoginIn(BaseModel)] *)
Record LoginIn : Type := { l_email : string; l_password : string }.

Definition register_dump (u : RegisterIn) : doc :=
  [("name", VStr (r_name u)); ("email", VStr (r_email u)); ("password", VStr (r_password u))].

Definition register (db : option store) (u : RegisterIn) : response * option store :=
  match db with
  | None => (ok (VDoc [("status", VStr "ok")]), db)
  | Some st =>
      let do_insert :=
        let (i, st') := create_document CUser (register_dump u) st in
        (ok (VDoc [("status", VStr "ok"); ("user_id", i)]), Some st') in
      match find_one [("email", VStr (r_email u))] (user st) with
      | Some (Some existing) =>
          if truthy (VDoc existing) then (http_error 400 "Email already registered", db)
          else do_insert
      | Some None => do_insert
      | None => (Unmodelled, db)
      end
  end.

Definition login (db : option store) (p : LoginIn) : response :=
  match db with
  | None => ok (VDoc [("status", VStr "ok"); ("token", VStr "demo-token")])
  | Some st =>
      match find_one [("email", VStr (l_email p)); ("password", VStr (l_password p))] (user st) with
      | Some (Some found) =>
          if truthy (VDoc found)
          then ok (VDoc [("status", VStr "ok"); ("token", VStr "demo-token");
                         ("user", VDoc (serialize_doc found))])
          else http_error 401 "Invalid credentials"
      | Some None => http_error 401 "Invalid credentials"
      | None => Unmodelled
      end
  end.

(** ** Seed data (main.py, lines 45-114) *)

Definition sample_products : list doc :=
  [ [("title", VStr "Glass Card Pro");
     ("description", VStr "Premium transparent credit card with NFC and rewards.");
     ("price", VNum 199); ("category", VStr "Cards"); ("stock", VNum 50);
     ("rating", VNum (48 # 10));
     ("images", VList [VStr "https://images.unsplash.com/photo-1556742393-d75f468bfcb0?auto=format&fit=crop&w=1200&q=60";
                       VStr "https://images.unsplash.com/photo-1542744094-24638eff58bb?auto=format&fit=crop&w=1200&q=60"]);
     ("thumbnail", VStr "https://images.unsplash.com/photo-1556742393-d75f468bfcb0?auto=format&fit=crop&w=800&q=60");
     ("featured", VBool true)];
    [("title", VStr "Metal Card X");
     ("description", VStr "Brushed metal card with concierge and lounge access.");
     ("price", VNum 299); ("category", VStr "Cards"); ("stock", VNum 20);
     ("rating", VNum (49 # 10));
     ("images", VList [VStr "https://images.unsplash.com/photo-1517245386807-bb43f82c33c4?auto=format&fit=crop&w=1200&q=60"]);
     ("thumbnail", VStr "https://images.unsplash.com/photo-1517245386807-bb43f82c33c4?auto=format&fit=crop&w=800&q=60");
     ("featured", VBool true)];
    [("title", VStr "Card Sleeve");
     ("description", VStr "Minimalist leather sleeve with RFID protection.");
     ("price", VNum 29); ("category", VStr "Accessories"); ("stock", VNum 200);
     ("rating", VNum (46 # 10));
     ("images", VList [VStr "https://images.unsplash.com/photo-1555529771-35a38c3c12c1?auto=format&fit=crop&w=1200&q=60"]);
     ("thumbnail", VStr "https://images.unsplash.com/photo-1555529771-35a38c3c12c1?auto=format&fit=crop&w=800&q=60");
     ("featured", VBool false)] ].

Definition sample_posts : list doc :=
  [ [("title", VStr "Designing the Future of Payments");
     ("excerpt", VStr "A look into glassmorphism and 3D in fintech UI.");
     ("content", VStr "Modern fintech combines security and delightful experiences...");
     ("thumbnail", VStr "https://images.unsplash.com/photo-1553729459-efe14ef6055d?auto=format&fit=crop&w=1000&q=60");
     ("author", VStr "Admin"); ("tags", VList [VStr "design"; VStr "fintech"])];
    [("title", VStr "How We Built Metal Card X");
     ("excerpt", VStr "Materials, durability, and sustainable sourcing.");
     ("content", VStr "The Metal Card X project started with a mission...");
     ("thumbnail", VStr "https://images.unsplash.com/photo-1498050108023-c5249f4df085?auto=format&fit=crop&w=1000&q=60");
     ("author", VStr "Admin"); ("tags", VList [VStr "hardware"; VStr "product"])] ].

(** [seed_database()]: each empty collection receives its samples. *)
Definition seed_database (db : option store) : option store :=
  match db with
  | None => None
  | Some st =>
      let st := if Nat.eqb (length (product st)) 0 then insert_many CProduct sample_products st else st in
      let st := if Nat.eqb (length (blogpost st)) 0 then insert_many CBlogpost sample_posts st else st in
      Some st
  end.

Definition empty_store : store := mkStore [] [] [] [] [] 0.

(** A [GET /api/products] query with the declared defaults
    ([limit=50], [skip=0], no filter). *)
Definition default_query : product_query :=
  Build_product_query None None None None None None 50 0.

(** ** Sanity checks on concrete inputs *)

Example oid_str_1 : oid_str (oid_of_nat 1) = "000000000000000000000001".
Proof. vm_compute. reflexivity. Qed.

Example parse_oid_roundtrip : parse_oid "00000000000000000000002a" = Some (oid_of_nat 42).
Proof. vm_compute. reflexivity. Qed.

Example parse_oid_bad : parse_oid "not-an-id" = None.
Proof. vm_compute. reflexivity. Qed.

Example seeded_all :
  match get_api_products (seed_database (Some empty_store)) default_query with
  | Resp 200 (VList l) => length l = 3
  | _ => False
  end.
Proof. vm_compute. reflexivity. Qed.

(** * Properties *)

(** ** Dict lemmas *)

Lemma dict_get_set_same (k : string) (v : value) (d : doc) :
  dict_get k (dict_set k v d) = Some v.
Proof.
  induction d as [| [k' v'] r IH]; cbn.
  - now rewrite String.eqb_refl.
  - destruct (String.eqb k k') eqn:E; cbn.
    + now rewrite String.eqb_refl.
    + now rewrite E.
Qed.

Lemma dict_get_set_other (k k' : string) (v : value) (d : doc) :
  k <> k' -> dict_get k' (dict_set k v d) = dict_get k' d.
Proof.
  intros Hne. induction d as [| [k0 v0] r IH]; cbn.
  - destruct (String.eqb_spec k' k); congruence.
  - destruct (String.eqb_spec k k0) as [-> | Hk]; cbn.
    + destruct (String.eqb_spec k' k0); congruence.
    + now rewrite IH.
Qed.

Lemma dict_get_pop_other (k k' : string) (d : doc) :
  k <> k' -> dict_get k' (dict_pop k d) = dict_get k' d.
Proof.
  intros Hne. induction d as [| [k0 v0] r IH]; cbn; [reflexivity |].
  destruct (String.eqb_spec k k0) as [-> | Hk]; cbn.
  - destruct (String.eqb_spec k' k0); congruence.
  - now rewrite IH.
Qed.

(** Keys of a dict are distinct. *)
Fixpoint nodup_keys (d : doc) : bool :=
  match d with
  | [] => true
  | (k, _) :: r => negb (existsb (fun kv => String.eqb k (fst kv)) r) && nodup_keys r
  end.

Lemma dict_get_none_of_not_key (k : string) (d : doc) :
  existsb (fun kv => String.eqb k (fst kv)) d = false -> dict_get k d = None.
Proof.
  induction d as [| [k0 v0] r IH]; cbn; [reflexivity |].
  destruct (String.eqb k k0); [discriminate | exact IH].
Qed.

Lemma dict_get_pop_same (k : string) (d : doc) :
  nodup_keys d = true -> dict_get k (dict_pop k d) = None.
Proof.
  induction d as [| [k0 v0] r IH]; cbn; [reflexivity |].
  intros H. apply andb_prop in H as [H1 H2].
  destruct (String.eqb_spec k k0) as [-> | Hk].
  - apply negb_true_iff in H1. now apply dict_get_none_of_not_key.
  - cbn. destruct (String.eqb_spec k k0); [contradiction | now apply IH].
Qed.

Lemma dict_set_not_nil (k : string) (v : value) (d : doc) : dict_set k v d <> [].
Proof. destruct d as [| [k0 v0] r]; cbn; [discriminate |]. now destruct (String.eqb k k0). Qed.

(** ** Stored documents *)

(** A stored document: distinct keys, and an [_id], if any, that is an
    [ObjectId] (the identifiers the store assigns on insertion). *)
Definition doc_okb (d : doc) : bool :=
  nodup_keys d && match dict_get "_id" d with None | Some (VOid _) => true | _ => false end.

Definition store_okb (st : store) : bool :=
  forallb doc_okb (product st) && forallb doc_okb (blogpost st) && forallb doc_okb (order st)
  && forallb doc_okb (contact st) && forallb doc_okb (user st).

Lemma store_okb_coll (st : store) (c : coll) (d : doc) :
  store_okb st = true -> In d (get_coll c st) -> doc_okb d = true.
Proof.
  unfold store_okb. intros H Hin.
  repeat rewrite andb_true_iff in H. destruct H as [[[[Hp Hb] Ho] Hc] Hu].
  destruct c; cbn in Hin; [rewrite forallb_forall in Hp | rewrite forallb_forall in Hb
  | rewrite forallb_forall in Ho | rewrite forallb_forall in Hc | rewrite forallb_forall in Hu]; auto.
Qed.

(** The store right after [seed_database] on an empty store. *)
Definition seeded : store :=
  match seed_database (Some empty_store) with Some st => st | None => empty_store end.

Lemma seeded_store_ok : store_okb seeded = true.
Proof. vm_compute. reflexivity. Qed.

(** ** Concrete inputs *)

Definition sample_register : RegisterIn := Build_RegisterIn "A" "a@x.com" "p".

Definition sample_contact : ContactIn := Build_ContactIn "A" "a@x.com" "hello".

Definition sample_order : Order :=
  Build_Order [Build_OrderItem "p1" "Glass Card Pro" 199 1 None] 199 10 209
    (Build_ShippingInfo "A" "a@x.com" "1" "Main St 1" "Town" "1000" "NL" "standard")
    (Build_PaymentInfo "cod" "pending") "created".

Definition with_limit (pq : product_query) (l : Z) : product_query :=
  Build_product_query (q pq) (category pq) (min_price pq) (max_price pq) (min_rating pq)
    (featured pq) l (skip pq).

(** ** C10: login without a store *)

(** C10: when the store handle is absent, [POST /api/auth/login] answers
    [{"status": "ok", "token": "demo-token"}] for every email/password
    pair, without checking credentials; the 401 answer never occurs. *)
Theorem login_no_store_demo_token (p : LoginIn) :
  login None p = ok (VDoc [("status", VStr "ok"); ("token", VStr "demo-token")])
  /\ status_of (login None p) <> Some 401%Z.
Proof. split; [reflexivity | cbn; discriminate]. Qed.

(** ** C2: write endpoints without a store *)

(** C2 (as stated, refuted): without a store, registration and contact
    submission do not answer 500. *)
Lemma writes_no_store_not_all_500 :
  ~ (forall (o : Order) (c : ContactIn) (u : RegisterIn),
        status_of (fst (create_order None o)) = Some 500%Z
        /\ status_of (fst (submit_contact None c)) = Some 500%Z
        /\ status_of (fst (register None u)) = Some 500%Z).
Proof.
  intros H. destruct (H sample_order sample_contact sample_register) as [_ [Hc _]].
  cbn in Hc. discriminate.
Qed.

(** C2 (amended): without a store, [POST /api/orders] answers 500, while
    [POST /api/contact] answers [{"status": "received"}] and
    [POST /api/auth/register] answers [{"status": "ok"}] (status 200,
    nothing stored); the list endpoints answer [[]] and the lookups 404. *)
Theorem no_store_endpoint_answers (o : Order) (c : ContactIn) (u : RegisterIn)
    (pq : product_query) (lim sk : Z) (ident : string) :
  create_order None o = (http_error 500 "Database not available", None)
  /\ submit_contact None c = (ok (VDoc [("status", VStr "received")]), None)
  /\ register None u = (ok (VDoc [("status", VStr "ok")]), None)
  /\ list_products None pq = ok (VList [])
  /\ list_blogs None lim sk = ok (VList [])
  /\ get_product None ident = http_error 404 "Not found"
  /\ get_blog None ident = http_error 404 "Not found".
Proof. repeat split. Qed.

(** ** C5: bounds of [limit] and [skip] *)

(** C5 (as stated, refuted): [limit=101] is rejected with 422, not 400. *)
Lemma limit_101_is_422 :
  ~ (forall (db : option store) (pq : product_query),
        (limit pq > 100 \/ limit pq < 1 \/ skip pq < 0)%Z ->
        status_of (get_api_products db pq) = Some 400%Z).
Proof.
  intros H. specialize (H None (with_limit default_query 101) ltac:(cbn; lia)).
  vm_compute in H. discriminate.
Qed.

(** C5 (amended): a list request with [limit > 100], [limit < 1] or
    [skip < 0] is rejected by the parameter validation with status 422,
    whatever the store, and never answered with clamped values. *)
Theorem list_bounds_rejected_422 (db : option store) (pq : product_query) (lim sk : Z) :
  ((limit pq > 100 \/ limit pq < 1 \/ skip pq < 0)%Z ->
     get_api_products db pq = validation_error)
  /\ ((lim > 100 \/ lim < 1 \/ sk < 0)%Z -> get_api_blogs db lim sk = validation_error).
Proof.
  split; intros H.
  - unfold get_api_products, product_query_ok.
    destruct H as [H | [H | H]].
    + replace (limit pq <=? 100)%Z with false by (symmetry; apply Z.leb_gt; lia).
      now rewrite !andb_false_r, ?andb_false_l.
    + replace (1 <=? limit pq)%Z with false by (symmetry; apply Z.leb_gt; lia).
      now rewrite !andb_false_r, ?andb_false_l.
    + replace (0 <=? skip pq)%Z with false by (symmetry; apply Z.leb_gt; lia).
      now rewrite !andb_false_r.
  - unfold get_api_blogs.
    destruct H as [H | [H | H]].
    + replace (lim <=? 100)%Z with false by (symmetry; apply Z.leb_gt; lia).
      now rewrite andb_false_r.
    + replace (1 <=? lim)%Z with false by (symmetry; apply Z.leb_gt; lia). reflexivity.
    + replace (0 <=? sk)%Z with false by (symmetry; apply Z.leb_gt; lia).
      now rewrite andb_false_r.
Qed.

Lemma list_bounds_rejected_422_witness :
  get_api_products None (with_limit default_query 101) = validation_error
  /\ get_api_blogs None 20 (-1) = validation_error.
Proof.
  split.
  - apply (proj1 (list_bounds_rejected_422 None (with_limit default_query 101) 20 (-1))).
    cbn. lia.
  - apply (proj2 (list_bounds_rejected_422 None (with_limit default_query 101) 20 (-1))).
    lia.
Defined.

(** ** Lookups by identifier *)

Lemma oid_eqb_eq (a b : oid) : oid_eqb a b = true <-> a = b.
Proof.
  destruct a as [x], b as [y]. unfold oid_eqb.
  revert y. induction x as [| bx x IH]; intros [| by' y]; cbn.
  - split; auto.
  - split; discriminate.
  - split; discriminate.
  - rewrite andb_assoc, (andb_comm (length x =? length y)), <- andb_assoc.
    rewrite andb_true_iff, IH. split.
    + intros [Hb Hr]. apply Byte.byte_dec_bl in Hb. congruence.
    + intros H. injection H as -> ->. split; [now apply Byte.byte_dec_lb | reflexivity].
Qed.

(** The filter [{"_id": oid}] on a stored document. *)
Lemma id_filter_matches (o : oid) (d : doc) :
  doc_okb d = true ->
  doc_matches [("_id", VOid o)] d = Some (match dict_get "_id" d with
                                          | Some (VOid o') => oid_eqb o o'
                                          | _ => false end).
Proof.
  unfold doc_okb. intros H. apply andb_prop in H as [_ H].
  cbn [doc_matches cond_matches].
  destruct (dict_get "_id" d) as [[] |]; cbn; try discriminate; try reflexivity.
  now rewrite andb_true_r.
Qed.


Lemma find_docs_ok_some (o : oid) (ds : list doc) :
  forallb doc_okb ds = true -> exists l, find_docs [("_id", VOid o)] ds = Some l.
Proof.
  induction ds as [| d r IH]; cbn [find_docs forallb]; [eauto |].
  intros H. apply andb_prop in H as [Hd Hr].
  rewrite (id_filter_matches o d Hd). destruct (IH Hr) as [l ->]. eauto.
Qed.






(** ** Serialization applied twice *)

Definition doc_with_id : doc := [("_id", VOid (oid_of_nat 1)); ("title", VStr "x")].

(** C9 (as stated, refuted): applying [serialize_doc] twice differs from
    applying it once: the second application replaces the string [id]
    by [None]. *)
Lemma serialize_twice_differs :
  serialize_doc doc_with_id = [("title", VStr "x"); ("id", VStr "000000000000000000000001")]
  /\ serialize_doc (serialize_doc doc_with_id) = [("title", VStr "x"); ("id", VNull)]
  /\ serialize_doc (serialize_doc doc_with_id) <> serialize_doc doc_with_id.
Proof. vm_compute. split; [reflexivity | split; [reflexivity | discriminate]]. Qed.

(** C9 (amended): on a document without [_id], [serialize_doc] keeps
    every field other than [id] and sets [id] to [None] (an empty
    document is returned as it is); a second application therefore
    equals the first one with [id] overwritten by [None]. *)
Theorem serialize_doc_second_application (d : doc) :
  (dict_get "_id" d = None ->
     (forall k, k <> "id" -> dict_get k (serialize_doc d) = dict_get k d)
     /\ (d <> [] -> dict_get "id" (serialize_doc d) = Some VNull)
     /\ (d = [] -> serialize_doc d = []))
  /\ (nodup_keys d = true ->
      serialize_doc (serialize_doc d)
      = match serialize_doc d with [] => [] | d' => dict_set "id" VNull d' end).
Proof.
  split.
  - intros Hn. unfold serialize_doc. rewrite Hn.
    destruct d as [| kv r]; cbn [truthy negb].
    + split; [reflexivity | split; [congruence | reflexivity]].
    + split; [| split; [intros _; apply dict_get_set_same | discriminate]].
      intros k Hk. apply dict_get_set_other. congruence.
  - intros Hnd. destruct d as [| kv r] eqn:Ed; [reflexivity |]. rewrite <- Ed.
    assert (Hd : truthy (VDoc d) = true) by now subst.
    assert (Hset : forall k v e, truthy (VDoc (dict_set k v e)) = true).
    { intros k v e. cbn. destruct (dict_set k v e) eqn:E; [now apply dict_set_not_nil in E | reflexivity]. }
    assert (Hne : forall k v e, match dict_set k v e with [] => [] | d' => dict_set "id" VNull d' end
                                = dict_set "id" VNull (dict_set k v e)).
    { intros k v e. destruct (dict_set k v e) eqn:E; [now apply dict_set_not_nil in E | reflexivity]. }
    remember (serialize_doc d) as sd eqn:Es.
    unfold serialize_doc in Es. rewrite Hd in Es. cbn [negb] in Es.
    destruct (dict_get "_id" d) as [v |] eqn:Eid; [destruct (truthy v) eqn:Tv |];
      subst sd; rewrite Hne; unfold serialize_doc; rewrite Hset; cbn [negb].
    + rewrite dict_get_set_other by discriminate.
      now rewrite dict_get_pop_same by (rewrite Ed; exact Hnd).
    + rewrite dict_get_set_other by discriminate. now rewrite Eid, Tv.
    + rewrite dict_get_set_other by discriminate. now rewrite Eid.
Qed.

Lemma serialize_doc_second_application_witness :
  serialize_doc (serialize_doc doc_with_id) = dict_set "id" VNull (serialize_doc doc_with_id)
  /\ dict_get "title" (serialize_doc [("title", VStr "x")]) = Some (VStr "x").
Proof.
  split.
  - exact (proj2 (serialize_doc_second_application doc_with_id) eq_refl).
  - apply (proj1 (proj1 (serialize_doc_second_application [("title", VStr "x")]) eq_refl)).
    discriminate.
Defined.

(** ** Orders without a payment object *)

Definition body_shipping : value :=
  VDoc [("full_name", VStr "A"); ("email", VStr "a@x.com"); ("phone", VStr "1");
        ("address", VStr "Main St 1"); ("city", VStr "Town"); ("postal_code", VStr "1000");
        ("country", VStr "NL")].

Definition body_items : value :=
  VList [VDoc [("product_id", VStr "p1"); ("title", VStr "Glass Card Pro");
               ("price", VNum 199); ("quantity", VNum 1)]].

(** An order body with every field of [Order] but [payment]. *)
Definition order_body_no_payment : value :=
  VDoc [("items", body_items); ("subtotal", VNum 199); ("shipping_cost", VNum 10);
        ("total", VNum 209); ("shipping", body_shipping)].

(** The same body with an empty payment object. *)
Definition order_body_empty_payment : value :=
  VDoc [("items", body_items); ("subtotal", VNum 199); ("shipping_cost", VNum 10);
        ("total", VNum 209); ("shipping", body_shipping); ("payment", VDoc [])].

Lemma parse_order_requires_payment (d : doc) :
  dict_get "payment" d = None -> parse_order (VDoc d) = None.
Proof.
  intros H. unfold parse_order. cbn [as_doc]. rewrite H.
  destruct (match dict_get "items" d with Some (VList l) => p_list parse_order_item l | _ => None end); [| reflexivity].
  destruct (p_float (dict_get "subtotal" d)); [| reflexivity].
  destruct (p_float (dict_get "shipping_cost" d)); [| reflexivity].
  destruct (p_float (dict_get "total" d)); [| reflexivity].
  destruct (match dict_get "shipping" d with Some v => parse_shipping v | None => None end); reflexivity.
Qed.

Lemma order_dump_has_payment (o : Order) :
  dict_get "payment" (order_dump o) = Some (payment_dump (payment o)).
Proof. reflexivity. Qed.

(** C4 (evaluated at the failing input): an order body without
    [payment] is rejected by validation with 422, whatever the store;
    the same body with an empty payment object is accepted and stored
    with payment [{"method": "cod", "status": "pending"}]. *)
Theorem order_without_payment_rejected :
  post_orders (Some empty_store) order_body_no_payment = (validation_error, Some empty_store)
  /\ post_orders None order_body_no_payment = (validation_error, None)
  /\ (exists st',
        post_orders (Some empty_store) order_body_empty_payment
        = (ok (VDoc [("order_id", VStr "000000000000000000000000"); ("status", VStr "created");
                     ("payment_url", VStr "https://example-pay.test/checkout/000000000000000000000000")]),
           Some st')
        /\ map (dict_get "payment") (order st') = [Some default_payment]).
Proof.
  split; [| split].
  - unfold post_orders, order_body_no_payment. now rewrite parse_order_requires_payment.
  - unfold post_orders, order_body_no_payment. now rewrite parse_order_requires_payment.
  - eexists. split; vm_compute; reflexivity.
Qed.

(** ** The identifier rule on returned documents *)

(** [r] is [d] with the identifier rule applied: no [_id], the
    [ObjectId] of [d] as the string [id], [id] null or absent when [d]
    has no identifier, every other field unchanged. *)
Definition id_rule (d r : doc) : Prop :=
  dict_get "_id" r = None
  /\ (forall o, dict_get "_id" d = Some (VOid o) -> dict_get "id" r = Some (VStr (oid_str o)))
  /\ (dict_get "_id" d = None -> dict_get "id" r = None \/ dict_get "id" r = Some VNull)
  /\ (forall k, k <> "_id" -> k <> "id" -> dict_get k r = dict_get k d).

Lemma serialize_doc_id_rule (d : doc) : doc_okb d = true -> id_rule d (serialize_doc d).
Proof.
  unfold doc_okb. intros H. apply andb_prop in H as [Hnd Hid].
  destruct d as [| kv r] eqn:Ed.
  { cbn. repeat split; auto; discriminate. }
  rewrite <- Ed in *. unfold serialize_doc.
  replace (negb (truthy (VDoc d))) with false by now subst.
  destruct (dict_get "_id" d) as [v |] eqn:Eid.
  - destruct v; try discriminate. cbn [truthy py_str].
    repeat split.
    + rewrite dict_get_set_other by discriminate. now apply dict_get_pop_same.
    + intros o' H. rewrite Eid in H. injection H as <-. apply dict_get_set_same.
    + intros H. rewrite Eid in H. discriminate.
    + intros k Hk1 Hk2. rewrite dict_get_set_other by congruence.
      apply dict_get_pop_other. congruence.
  - repeat split.
    + rewrite dict_get_set_other by discriminate. exact Eid.
    + intros o H. rewrite Eid in H. discriminate.
    + intros _. right. apply dict_get_set_same.
    + intros k Hk1 Hk2. apply dict_get_set_other. congruence.
Qed.

Lemma find_docs_incl (f : doc) (ds l : list doc) :
  find_docs f ds = Some l -> forall d, In d l -> In d ds.
Proof.
  revert l. induction ds as [| e r IH]; cbn [find_docs]; intros l H d Hin.
  - injection H as <-. exact Hin.
  - destruct (doc_matches f e) as [b |]; [| discriminate].
    destruct (find_docs f r) as [l' |] eqn:E; [| discriminate].
    injection H as <-. destruct b.
    + destruct Hin as [<- | Hin]; [now left | right; eapply IH; eauto].
    + right. eapply IH; eauto.
Qed.

Lemma skip_limit_incl (a b : Z) (l : list doc) (d : doc) :
  In d (skip_limit a b l) -> In d l.
Proof.
  unfold skip_limit. intros H.
  rewrite <- (firstn_skipn (Z.to_nat a) l). apply in_or_app. right.
  destruct (b =? 0)%Z; [exact H |].
  rewrite <- (firstn_skipn (Z.to_nat (Z.abs b)) (skipn (Z.to_nat a) l)). apply in_or_app. now left.
Qed.

Lemma insert_desc_incl (d x : doc) (l : list doc) :
  In x (insert_desc d l) -> x = d \/ In x l.
Proof.
  induction l as [| e r IH]; cbn [insert_desc].
  - intros [<- | []]. now left.
  - destruct (bson_cmp (id_key d) (id_key e)).
    + intros [<- | [<- | H]]; [now left | right; now left | right; now right].
    + intros [<- | H]; [right; now left |]. destruct (IH H); [now left | right; now right].
    + intros [<- | [<- | H]]; [now left | right; now left | right; now right].
Qed.

Lemma sort_id_desc_incl (l : list doc) (x : doc) : In x (sort_id_desc l) -> In x l.
Proof.
  induction l as [| e r IH]; cbn; [auto |].
  intros H. destruct (insert_desc_incl e x _ H); [now left | right; now apply IH].
Qed.

Lemma find_one_incl (f : doc) (ds : list doc) (d : doc) :
  find_one f ds = Some (Some d) -> In d ds.
Proof.
  unfold find_one. destruct (find_docs f ds) as [[| e l] |] eqn:E; try discriminate.
  intros H. injection H as <-. eapply find_docs_incl; [exact E | now left].
Qed.

Lemma serialize_all_rule (ds l : list doc) (vs : list value) :
  (forall d, In d l -> In d ds) -> forallb doc_okb ds = true ->
  serialize_all l = VList vs ->
  forall x, In x vs -> exists d r, In d ds /\ x = VDoc r /\ id_rule d r.
Proof.
  intros Hincl Hok H x Hx. unfold serialize_all in H. injection H as <-.
  apply in_map_iff in Hx as [d [<- Hd]].
  exists d, (serialize_doc d). split; [now apply Hincl | split; [reflexivity |]].
  apply serialize_doc_id_rule. rewrite forallb_forall in Hok. auto.
Qed.

Lemma coll_ok (st : store) (c : coll) :
  store_okb st = true -> forallb doc_okb (get_coll c st) = true.
Proof. intros H. apply forallb_forall. intros d. now apply store_okb_coll. Qed.

Lemma get_by_id_rule (c : coll) (st : store) (s : string) (r : doc) :
  store_okb st = true -> get_by_id c (Some st) s = ok (VDoc r) ->
  exists d, In d (get_coll c st) /\ id_rule d r.
Proof.
  intros Hok. unfold get_by_id.
  destruct (parse_oid s) as [o |]; [| discriminate].
  destruct (find_one [("_id", VOid o)] (get_coll c st)) as [[d |] |] eqn:E; try discriminate.
  destruct (truthy (VDoc d)); [| discriminate].
  intros H. injection H as <-. exists d. split; [eapply find_one_incl; eauto |].
  apply serialize_doc_id_rule. eapply store_okb_coll; [exact Hok | eapply find_one_incl; eauto].
Qed.

(** The stored-document invariant is kept by every insertion of the
    handlers and by seeding. *)
Lemma existsb_key_none (k : string) (d : doc) :
  dict_get k d = None -> existsb (fun kv => String.eqb k (fst kv)) d = false.
Proof.
  induction d as [| [k0 v0] r IH]; cbn; [reflexivity |].
  destruct (String.eqb k k0); [discriminate | exact IH].
Qed.

Lemma insert_one_store_ok (c : coll) (d : doc) (st : store) :
  store_okb st = true -> nodup_keys d = true -> dict_get "_id" d = None ->
  store_okb (snd (insert_one c d st)) = true.
Proof.
  intros Hok Hnd Hid. unfold insert_one. rewrite Hid. cbn [snd].
  assert (Hd : doc_okb (("_id", VOid (oid_of_nat (next_id st))) :: d) = true).
  { unfold doc_okb. cbn [nodup_keys dict_get]. rewrite existsb_key_none, Hnd by exact Hid.
    reflexivity. }
  unfold store_okb in *. repeat rewrite andb_true_iff in Hok.
  destruct Hok as [[[[Hp Hb] Ho] Hc] Hu].
  destruct c; cbn; rewrite ?forallb_app, ?Hp, ?Hb, ?Ho, ?Hc, ?Hu; cbn; now rewrite ?Hd.
Qed.

Lemma insert_many_store_ok (c : coll) (ds : list doc) (st : store) :
  store_okb st = true ->
  forallb (fun d => nodup_keys d && match dict_get "_id" d with None => true | _ => false end) ds = true ->
  store_okb (insert_many c ds st) = true.
Proof.
  revert st. induction ds as [| d r IH]; intros st Hok Hds; cbn [insert_many]; [exact Hok |].
  cbn [forallb] in Hds. apply andb_prop in Hds as [Hd Hr]. apply andb_prop in Hd as [Hnd Hid].
  apply IH; [| exact Hr]. apply insert_one_store_ok; [exact Hok | exact Hnd |].
  destruct (dict_get "_id" d); [discriminate | reflexivity].
Qed.

Lemma seed_database_store_ok (st st' : store) :
  store_okb st = true -> seed_database (Some st) = Some st' -> store_okb st' = true.
Proof.
  intros Hok H. unfold seed_database in H.
  assert (Hs : forall x y : store, Some x = Some y -> x = y) by congruence.
  apply Hs in H. subst st'. cbv zeta.
  assert (Hite : forall c ds (b : bool) s0, store_okb s0 = true ->
            forallb (fun d => nodup_keys d && match dict_get "_id" d with None => true | _ => false end) ds = true ->
            store_okb (if b then insert_many c ds s0 else s0) = true).
  { intros c ds b s0 H0 Hds. destruct b; [now apply insert_many_store_ok | exact H0]. }
  apply Hite; [apply Hite; [exact Hok | reflexivity] | reflexivity].
Qed.

Lemma writes_keep_store_ok (st : store) (o : Order) (cm : ContactIn) (r : RegisterIn) :
  store_okb st = true ->
  (forall st', snd (create_order (Some st) o) = Some st' -> store_okb st' = true)
  /\ (forall st', snd (submit_contact (Some st) cm) = Some st' -> store_okb st' = true)
  /\ (forall st', snd (register (Some st) r) = Some st' -> store_okb st' = true).
Proof.
  intros Hok. split; [| split]; intros st' H.
  - unfold create_order in H.
    destruct (insert_one COrder _ st) as [iid st1] eqn:E.
    assert (Hst1 : store_okb st1 = true).
    { replace st1 with (snd (insert_one COrder
                               (dict_set "payment" (dict_get_default "payment" (order_dump o) default_payment)
                                  (order_dump o)) st)) by now rewrite E.
      apply insert_one_store_ok; [exact Hok | reflexivity | reflexivity]. }
    cbv beta iota zeta in H. cbn [snd] in H. assert (st1 = st') by congruence. subst. exact Hst1.
  - unfold submit_contact, create_document in H.
    destruct (insert_one CContact (contact_dump cm) st) as [iid st1] eqn:E.
    assert (Hst1 : store_okb st1 = true).
    { replace st1 with (snd (insert_one CContact (contact_dump cm) st)) by now rewrite E.
      apply insert_one_store_ok; [exact Hok | reflexivity | reflexivity]. }
    cbv beta iota zeta in H. cbn [snd] in H. assert (st1 = st') by congruence. subst. exact Hst1.
  - unfold register, create_document in H.
    destruct (insert_one CUser (register_dump r) st) as [iid st1] eqn:E.
    assert (Hst1 : store_okb st1 = true).
    { replace st1 with (snd (insert_one CUser (register_dump r) st)) by now rewrite E.
      apply insert_one_store_ok; [exact Hok | reflexivity | reflexivity]. }
    destruct (find_one _ (user st)) as [[ex |] |]; [destruct (truthy (VDoc ex)) |..];
      cbv beta iota zeta in H; cbn [snd] in H; injection H as <-; assumption.
Qed.

(** C1: every document handed to a caller, as a single lookup result,
    as an element of a product or blog list, or as the [user] of a
    login, is a stored document with the identifier rule applied: its
    [_id] removed and re-inserted as the string [id], [id] null or
    absent when it has none; [serialize_doc] itself obeys the rule on
    every document whose [_id], if any, is an [ObjectId]. *)
Theorem returned_documents_follow_id_rule (st : store) :
  store_okb st = true ->
  (forall d, doc_okb d = true -> id_rule d (serialize_doc d))
  /\ (forall pq vs, list_products (Some st) pq = ok (VList vs) ->
        forall x, In x vs -> exists d r, In d (product st) /\ x = VDoc r /\ id_rule d r)
  /\ (forall lim sk vs, list_blogs (Some st) lim sk = ok (VList vs) ->
        forall x, In x vs -> exists d r, In d (blogpost st) /\ x = VDoc r /\ id_rule d r)
  /\ (forall s r, get_product (Some st) s = ok (VDoc r) ->
        exists d, In d (product st) /\ id_rule d r)
  /\ (forall s r, get_blog (Some st) s = ok (VDoc r) ->
        exists d, In d (blogpost st) /\ id_rule d r)
  /\ (forall p r, login (Some st) p = ok (VDoc [("status", VStr "ok"); ("token", VStr "demo-token");
                                               ("user", VDoc r)]) ->
        exists d, In d (user st) /\ id_rule d r).
Proof.
  intros Hok. split; [exact serialize_doc_id_rule |]. split; [| split; [| split; [| split]]].
  - intros pq vs H. unfold list_products in H.
    destruct (find_docs (build_filter pq) (product st)) as [l |] eqn:E; [| discriminate].
    injection H as <-. eapply serialize_all_rule; [| exact (coll_ok st CProduct Hok) | reflexivity].
    intros d Hd. eapply find_docs_incl; [exact E | eapply skip_limit_incl; exact Hd].
  - intros lim sk vs H. cbn [list_blogs] in H. injection H as <-.
    eapply serialize_all_rule; [| exact (coll_ok st CBlogpost Hok) | reflexivity].
    intros d Hd. apply sort_id_desc_incl. eapply skip_limit_incl. exact Hd.
  - intros s r H. exact (get_by_id_rule CProduct st s r Hok H).
  - intros s r H. exact (get_by_id_rule CBlogpost st s r Hok H).
  - intros p r H. unfold login in H.
    destruct (find_one _ (user st)) as [[found |] |] eqn:E; try discriminate.
    destruct (truthy (VDoc found)); [| discriminate].
    injection H as <-. exists found. split; [eapply find_one_incl; eauto |].
    apply serialize_doc_id_rule. eapply (store_okb_coll st CUser); [exact Hok | eapply find_one_incl; eauto].
Qed.

Lemma returned_documents_follow_id_rule_witness :
  exists d r, In d (product seeded)
              /\ hd VNull (match list_products (Some seeded) default_query with
                           | Resp _ (VList vs) => vs | _ => [] end) = VDoc r
              /\ id_rule d r.
Proof.
  eapply (proj1 (proj2 (returned_documents_follow_id_rule seeded seeded_store_ok)) default_query).
  - reflexivity.
  - vm_compute. left. reflexivity.
Defined.

(** ** The title filter *)


Definition lower (s : string) : list ascii := map ascii_lower (list_ascii_of_string s).














(** ** The price range *)

Definition price_query (lo hi : option Q) : product_query :=
  Build_product_query None None lo hi None None 50 0.

Definition bound_ok (lo hi : option Q) (p : Q) : bool :=
  match lo with Some a => Qle_bool a p | None => true end
  && match hi with Some b => Qle_bool p b | None => true end.

Lemma build_filter_price (pq : product_query) :
  dict_get "price" (build_filter pq)
  = match min_price pq, max_price pq with
    | None, None => None
    | Some a, None => Some (VDoc [("$gte", VNum a)])
    | None, Some b => Some (VDoc [("$lte", VNum b)])
    | Some a, Some b => Some (VDoc [("$gte", VNum a); ("$lte", VNum b)])
    end.
Proof.
  unfold build_filter.
  destruct (opt_truthy_str (q pq)), (opt_truthy_str (category pq)), (min_price pq),
    (max_price pq), (min_rating pq), (featured pq); reflexivity.
Qed.

Lemma insert_many_product (c : coll) (ds : list doc) (st : store) :
  c <> CProduct -> product (insert_many c ds st) = product st.
Proof.
  intros Hc. revert st. induction ds as [| d r IH]; intros st; cbn [insert_many]; [reflexivity |].
  rewrite IH. unfold insert_one.
  destruct (dict_get "_id" d); destruct c; cbn; congruence.
Qed.

(** C7: the price bounds form one inclusive range condition on [price],
    with an absent bound left out of it; on the three seeded products,
    [min_price=100&max_price=250] selects exactly "Glass Card Pro". *)
Theorem price_range_inclusive (pq : product_query) (st : store) :
  (dict_get "price" (build_filter pq)
   = match min_price pq, max_price pq with
     | None, None => None
     | Some a, None => Some (VDoc [("$gte", VNum a)])
     | None, Some b => Some (VDoc [("$lte", VNum b)])
     | Some a, Some b => Some (VDoc [("$gte", VNum a); ("$lte", VNum b)])
     end)
  /\ (forall c p, dict_get "price" (build_filter pq) = Some c ->
        cond_matches (Some (VNum p)) c = Some (bound_ok (min_price pq) (max_price pq) p))
  /\ (product st = [] ->
      get_api_products (seed_database (Some st)) (price_query (Some 100%Q) (Some 250%Q))
      = ok (VList [VDoc (serialize_doc (("_id", VOid (oid_of_nat (next_id st)))
                                          :: nth 0 sample_products []))])).
Proof.
  split; [apply build_filter_price | split].
  - intros c p. rewrite build_filter_price. unfold bound_ok.
    destruct (min_price pq) as [a |], (max_price pq) as [b |]; intros H; try discriminate;
      injection H as <-; cbn; now rewrite ?andb_true_r.
  - destruct st as [prods blogs ords cons users n]. cbn [product next_id]. intros ->.
    unfold seed_database. cbn [product blogpost length Nat.eqb].
    set (st1 := insert_many CProduct sample_products (mkStore [] blogs ords cons users n)).
    assert (Hp : product st1 = [("_id", VOid (oid_of_nat n)) :: nth 0 sample_products [];
                                ("_id", VOid (oid_of_nat (S n))) :: nth 1 sample_products [];
                                ("_id", VOid (oid_of_nat (S (S n)))) :: nth 2 sample_products []])
      by reflexivity.
    assert (Hseed : forall st2, product st2 = product st1 ->
              get_api_products (Some st2) (price_query (Some 100%Q) (Some 250%Q))
              = ok (VList [VDoc (serialize_doc (("_id", VOid (oid_of_nat n)) :: nth 0 sample_products []))])).
    { intros st2 H2. unfold get_api_products, list_products. rewrite H2, Hp. reflexivity. }
    destruct (Nat.eqb (length (blogpost st1)) 0); apply Hseed;
      [apply insert_many_product; discriminate | reflexivity].
Qed.

Lemma price_range_inclusive_witness :
  get_api_products (seed_database (Some empty_store)) (price_query (Some 100%Q) (Some 250%Q))
  = ok (VList [VDoc (serialize_doc (("_id", VOid (oid_of_nat 0)) :: nth 0 sample_products []))])
  /\ cond_matches (Some (VNum 250%Q)) (VDoc [("$gte", VNum 100%Q); ("$lte", VNum 250%Q)]) = Some true.
Proof.
  split.
  - exact (proj2 (proj2 (price_range_inclusive (price_query (Some 100%Q) (Some 250%Q)) empty_store)) eq_refl).
  - exact (proj1 (proj2 (price_range_inclusive (price_query (Some 100%Q) (Some 250%Q)) empty_store))
             _ 250%Q eq_refl).
Defined.

(** ** Registration *)

(** Every stored user has a string email (or none), as [register]
    stores them. *)
Definition users_email_okb (l : list doc) : bool :=
  forallb (fun u => match dict_get "email" u with None | Some (VStr _) => true | _ => false end) l.

Lemma find_docs_total (f : doc) (ds : list doc) (tst : doc -> bool) :
  (forall d, In d ds -> doc_matches f d = Some (tst d)) ->
  find_docs f ds = Some (filter tst ds).
Proof.
  induction ds as [| d r IH]; intros H; cbn [find_docs filter]; [reflexivity |].
  rewrite (H d (or_introl eq_refl)), IH by (intros d' Hd'; apply H; now right).
  reflexivity.
Qed.

Definition email_test (e : string) (u : doc) : bool :=
  on_field (scalar_eqb (VStr e)) (dict_get "email" u).

Lemma email_filter_matches (e : string) (u : doc) :
  doc_matches [("email", VStr e)] u = Some (email_test e u).
Proof. cbn. now rewrite andb_true_r. Qed.

Lemma find_one_email (e : string) (ds : list doc) :
  find_one [("email", VStr e)] ds
  = match filter (email_test e) ds with [] => Some None | x :: _ => Some (Some x) end.
Proof.
  unfold find_one. rewrite (find_docs_total _ ds (email_test e)) by (intros; apply email_filter_matches).
  now destruct (filter (email_test e) ds).
Qed.

(** C8: with a reachable store, registering an email exactly equal to a
    stored user's email is rejected with 400 and stores nothing; an email
    equal to no stored user's email is stored and its new identifier is
    returned (and every stored email stays a string). *)
Theorem register_duplicate_email (st : store) (r : RegisterIn) :
  ((exists u, In u (user st) /\ dict_get "email" u = Some (VStr (r_email r))) ->
     register (Some st) r = (http_error 400 "Email already registered", Some st))
  /\ (users_email_okb (user st) = true ->
      (forall u, In u (user st) -> dict_get "email" u <> Some (VStr (r_email r))) ->
      exists st',
        register (Some st) r
        = (ok (VDoc [("status", VStr "ok"); ("user_id", VStr (oid_str (oid_of_nat (next_id st))))]),
           Some st')
        /\ user st' = (user st ++ [("_id", VOid (oid_of_nat (next_id st))) :: register_dump r])%list
        /\ users_email_okb (user st') = true).
Proof.
  split.
  - intros [u [Hu He]]. unfold register. rewrite find_one_email.
    assert (Hin : In u (filter (email_test (r_email r)) (user st))).
    { apply filter_In. split; [exact Hu |]. unfold email_test. rewrite He. cbn.
      now rewrite String.eqb_refl. }
    destruct (filter (email_test (r_email r)) (user st)) as [| x l] eqn:Ef; [destruct Hin |].
    assert (Hx : email_test (r_email r) x = true).
    { assert (In x (filter (email_test (r_email r)) (user st))) as Hx by (rewrite Ef; now left).
      now apply filter_In in Hx. }
    destruct x as [| kv x']; [discriminate | reflexivity].
  - intros Hok Hno. unfold register. rewrite find_one_email.
    replace (filter (email_test (r_email r)) (user st)) with (@nil doc).
    + eexists. split; [reflexivity | split; [reflexivity |]].
      cbn [user set_coll insert_one dict_get register_dump String.eqb].
      cbn [get_coll]. unfold users_email_okb. rewrite forallb_app. unfold users_email_okb in Hok. now rewrite Hok.
    + symmetry. rewrite (filter_ext_in _ (fun _ => false)); [apply filter_false |].
      intros u Hu. unfold users_email_okb in Hok.
      rewrite forallb_forall in Hok. specialize (Hok u Hu). specialize (Hno u Hu).
      unfold email_test. destruct (dict_get "email" u) as [[] |]; try discriminate; try reflexivity.
      cbn. apply String.eqb_neq. congruence.
Qed.

Lemma register_duplicate_email_witness :
  let r := sample_register in
  exists st',
    register (Some empty_store) r
    = (ok (VDoc [("status", VStr "ok"); ("user_id", VStr (oid_str (oid_of_nat 0)))]), Some st')
    /\ register (Some st') r = (http_error 400 "Email already registered", Some st')
    /\ (exists st'' v, register (Some st') (Build_RegisterIn "A" "A@x.com" "p")
                       = (ok (VDoc [("status", VStr "ok"); ("user_id", v)]), Some st'')).
Proof.
  cbn zeta.
  destruct (proj2 (register_duplicate_email empty_store sample_register) eq_refl
              ltac:(intros u [])) as [st' [H1 [H2 H3]]].
  exists st'. split; [exact H1 |]. split.
  - apply (proj1 (register_duplicate_email st' sample_register)).
    exists (("_id", VOid (oid_of_nat 0)) :: register_dump sample_register).
    rewrite H2. split; [now left | reflexivity].
  - destruct (proj2 (register_duplicate_email st' (Build_RegisterIn "A" "A@x.com" "p")) H3)
      as [st'' [H4 _]].
    + rewrite H2. intros u [<- | []]. vm_compute. discriminate.
    + eexists st'', _. exact H4.
Defined.

(** * Further properties of the handlers and schemas *)

(** ** ObjectId text round trip *)

Lemma concat_empty_cons (x : string) (xs : list string) :
  String.concat "" (x :: xs) = (x ++ String.concat "" xs)%string.
Proof.
  destruct xs as [| y ys]; [| reflexivity].
  cbn [String.concat]. induction x as [| c x IH]; cbn; [reflexivity | now rewrite <- IH].
Qed.

Lemma list_ascii_of_string_app (a b : string) :
  list_ascii_of_string (a ++ b) = (list_ascii_of_string a ++ list_ascii_of_string b)%list.
Proof. induction a as [| c a IH]; cbn; [reflexivity | now rewrite IH]. Qed.

Lemma string_length_app (a b : string) :
  String.length (a ++ b) = String.length a + String.length b.
Proof. induction a as [| c a IH]; cbn; [reflexivity | now rewrite IH]. Qed.

Definition byte_hex_okb (b : byte) : bool :=
  match list_ascii_of_string (byte_hex b) with
  | [c1; c2] =>
      negb (is_ascii_ws c1)
      && match hex_val c1, hex_val c2 with
         | Some h, Some l => match Byte.of_nat (16 * h + l) with
                             | Some b' => Byte.eqb b b' | None => false end
         | _, _ => false
         end
  | _ => false
  end.

Lemma byte_hex_ok (b : byte) : byte_hex_okb b = true.
Proof. destruct b; reflexivity. Qed.

Lemma fromhex_byte_hex (b : byte) (rest : list ascii) :
  fromhex (list_ascii_of_string (byte_hex b) ++ rest)%list
  = match fromhex rest with Some bs => Some (b :: bs) | None => None end.
Proof.
  pose proof (byte_hex_ok b) as H. unfold byte_hex_okb in H.
  destruct (list_ascii_of_string (byte_hex b)) as [| c1 [| c2 [| c3 r]]]; try discriminate.
  cbn [app fromhex]. destruct (is_ascii_ws c1); [discriminate |].
  destruct (hex_val c1) as [h |], (hex_val c2) as [l |]; try discriminate.
  destruct (Byte.of_nat (16 * h + l)) as [b' |]; [| discriminate].
  cbn in H. apply Byte.byte_dec_bl in H. subst b'.
  now destruct (fromhex rest).
Qed.

Lemma fromhex_oid_str (bs : list byte) :
  fromhex (list_ascii_of_string (oid_str (Oid bs))) = Some bs.
Proof.
  induction bs as [| b bs IH]; [reflexivity |].
  cbn [oid_str map]. rewrite concat_empty_cons, list_ascii_of_string_app, fromhex_byte_hex.
  cbn [oid_str] in IH. now rewrite IH.
Qed.

Lemma oid_str_length (bs : list byte) : String.length (oid_str (Oid bs)) = 2 * length bs.
Proof.
  induction bs as [| b bs IH]; [reflexivity |].
  cbn [oid_str map]. rewrite concat_empty_cons, string_length_app.
  cbn [oid_str] in IH. rewrite IH. cbn [length]. unfold byte_hex. cbn. lia.
Qed.

(** The raw bytes of an [ObjectId]. *)
Definition oid_bytes (o : oid) : list byte := match o with Oid bs => bs end.

Lemma parse_oid_oid_str (o : oid) :
  length (oid_bytes o) = 12 -> parse_oid (oid_str o) = Some o.
Proof.
  destruct o as [bs]. cbn [oid_bytes]. intros Hl. unfold parse_oid.
  rewrite oid_str_length, Hl. cbn [Nat.eqb Nat.mul Nat.add]. now rewrite fromhex_oid_str.
Qed.

(** X1: the text form of a 12-byte [ObjectId] is 24 characters long
    and reads back as the same identifier, both through [ObjectId(s)]
    (as the lookups do) and through [PyObjectId.validate]. *)
Theorem oid_text_roundtrip (o : oid) :
  length (oid_bytes o) = 12 ->
  String.length (oid_str o) = 24
  /\ parse_oid (oid_str o) = Some o
  /\ pyobjectid_validate (VStr (oid_str o)) = Some o.
Proof.
  intros Hl. assert (Hp : parse_oid (oid_str o) = Some o) by now apply parse_oid_oid_str.
  destruct o as [bs]. cbn [oid_bytes] in Hl.
  split; [rewrite oid_str_length, Hl; reflexivity | split; [exact Hp |]].
  unfold pyobjectid_validate, objectid_is_valid. rewrite Hp. cbn [truthy].
  destruct (String.eqb (oid_str (Oid bs)) "") eqn:E; cbn [negb]; [| reflexivity].
  apply String.eqb_eq in E. rewrite E in Hp. vm_compute in Hp. discriminate.
Qed.

(** ** Lookups ignore the case of hexadecimal digits *)

(** The string with its ASCII letters lower-cased. *)
Definition lower_str (s : string) : string := string_of_list_ascii (lower s).

Lemma hex_val_lower (c : ascii) : hex_val (ascii_lower c) = hex_val c.
Proof. destruct c as [[] [] [] [] [] [] [] []]; reflexivity. Qed.

Lemma ws_lower (c : ascii) : is_ascii_ws (ascii_lower c) = is_ascii_ws c.
Proof. destruct c as [[] [] [] [] [] [] [] []]; reflexivity. Qed.

Lemma fromhex_lower (cs : list ascii) : fromhex (map ascii_lower cs) = fromhex cs.
Proof.
  remember (length cs) as n eqn:En. revert cs En.
  induction n as [n IH] using (well_founded_induction lt_wf). intros cs En.
  destruct cs as [| c r]; [reflexivity |].
  cbn [map fromhex]. rewrite ws_lower.
  destruct (is_ascii_ws c).
  - apply (IH (length r)); [cbn in En; lia | reflexivity].
  - destruct r as [| c2 r']; [reflexivity |]. cbn [map].
    rewrite !hex_val_lower, (IH (length r')); [reflexivity | cbn in En; lia | reflexivity].
Qed.

Lemma parse_oid_lower (s : string) : parse_oid (lower_str s) = parse_oid s.
Proof.
  unfold parse_oid, lower_str, lower.
  rewrite list_ascii_of_string_of_list_ascii, fromhex_lower.
  replace (String.length (string_of_list_ascii (map ascii_lower (list_ascii_of_string s))))
    with (String.length s); [reflexivity |].
  induction s as [| c s IH]; cbn; [reflexivity | now rewrite <- IH].
Qed.

Lemma get_by_id_case_insensitive (c : coll) (db : option store) (s : string) :
  get_by_id c db (lower_str s) = get_by_id c db s.
Proof. unfold get_by_id. now rewrite parse_oid_lower. Qed.

(** X2: [GET /api/products/{id}] and [GET /api/blogs/{id}] answer the
    same for an identifier and for its lower-cased form: [ObjectId(s)]
    reads upper- and lower-case hexadecimal digits alike. *)
Theorem lookup_ignores_hex_case (db : option store) (s : string) :
  get_product db (lower_str s) = get_product db s /\ get_blog db (lower_str s) = get_blog db s.
Proof. split; apply get_by_id_case_insensitive. Qed.

(** ** Looking up a listed identifier *)
Lemma find_docs_all_match (f : doc) (ds l : list doc) :
  find_docs f ds = Some l -> forall x, In x l -> doc_matches f x = Some true.
Proof.
  revert l. induction ds as [| e r IH]; cbn [find_docs]; intros l H x Hx.
  - injection H as <-. destruct Hx.
  - destruct (doc_matches f e) as [[] |] eqn:Em; [| | discriminate];
      destruct (find_docs f r) as [l' |] eqn:E; try discriminate; injection H as <-.
    + destruct Hx as [<- | Hx]; [exact Em | eapply IH; eauto].
    + eapply IH; eauto.
Qed.

Lemma find_docs_keeps_match (f : doc) (ds l : list doc) (d : doc) :
  find_docs f ds = Some l -> In d ds -> doc_matches f d = Some true -> In d l.
Proof.
  revert l. induction ds as [| e r IH]; cbn [find_docs]; intros l H Hd Hm; [destruct Hd |].
  destruct (doc_matches f e) as [[] |] eqn:Em; [| | discriminate];
    destruct (find_docs f r) as [l' |] eqn:E; try discriminate; injection H as <-.
  - destruct Hd as [<- | Hd]; [now left | right; eapply IH; eauto].
  - destruct Hd as [<- | Hd]; [congruence | eapply IH; eauto].
Qed.

Lemma get_by_id_listed (c : coll) (st : store) (d : doc) (o : oid) :
  forallb doc_okb (get_coll c st) = true -> In d (get_coll c st) ->
  dict_get "_id" d = Some (VOid o) -> length (oid_bytes o) = 12 ->
  dict_get "id" (serialize_doc d) = Some (VStr (oid_str o))
  /\ exists d', In d' (get_coll c st) /\ dict_get "_id" d' = Some (VOid o)
                /\ get_by_id c (Some st) (oid_str o) = ok (VDoc (serialize_doc d'))
                /\ dict_get "id" (serialize_doc d') = Some (VStr (oid_str o)).
Proof.
  intros Hok Hin Hid Hlen.
  assert (Hokd : forall x, In x (get_coll c st) -> doc_okb x = true)
    by (rewrite forallb_forall in Hok; exact Hok).
  split; [exact (proj1 (proj2 (serialize_doc_id_rule d (Hokd d Hin))) o Hid) |].
  destruct (find_docs_ok_some o _ Hok) as [l Hl].
  assert (Hdl : In d l).
  { eapply find_docs_keeps_match; [exact Hl | exact Hin |].
    rewrite (id_filter_matches o d (Hokd d Hin)), Hid. f_equal. now apply oid_eqb_eq. }
  destruct l as [| d' l']; [destruct Hdl |].
  assert (Hd'in : In d' (get_coll c st)) by (eapply find_docs_incl; [exact Hl | now left]).
  assert (Hd'id : dict_get "_id" d' = Some (VOid o)).
  { pose proof (find_docs_all_match _ _ _ Hl d' (or_introl eq_refl)) as Hm.
    rewrite (id_filter_matches o d' (Hokd d' Hd'in)) in Hm.
    destruct (dict_get "_id" d') as [[] |]; try discriminate.
    injection Hm as Hm. apply oid_eqb_eq in Hm. now subst. }
  exists d'. split; [exact Hd'in | split; [exact Hd'id | split]].
  - unfold get_by_id. rewrite parse_oid_oid_str by exact Hlen.
    unfold find_one. rewrite Hl. destruct d' as [| kv r]; [discriminate | reflexivity].
  - exact (proj1 (proj2 (serialize_doc_id_rule d' (Hokd d' Hd'in))) o Hd'id).
Qed.

(** X5: for every stored product or blog post whose [_id] is a 12-byte
    [ObjectId], the [id] string it is listed with, used as the path
    parameter of the lookup endpoint, answers 200 with a stored
    document carrying that same [id] (the first one with that [_id]). *)
Theorem listed_id_lookup (st : store) (d : doc) (o : oid) :
  store_okb st = true -> dict_get "_id" d = Some (VOid o) -> length (oid_bytes o) = 12 ->
  (In d (product st) ->
     dict_get "id" (serialize_doc d) = Some (VStr (oid_str o))
     /\ exists d', In d' (product st) /\ dict_get "_id" d' = Some (VOid o)
                  /\ get_product (Some st) (oid_str o) = ok (VDoc (serialize_doc d'))
                  /\ dict_get "id" (serialize_doc d') = Some (VStr (oid_str o)))
  /\ (In d (blogpost st) ->
      dict_get "id" (serialize_doc d) = Some (VStr (oid_str o))
      /\ exists d', In d' (blogpost st) /\ dict_get "_id" d' = Some (VOid o)
                   /\ get_blog (Some st) (oid_str o) = ok (VDoc (serialize_doc d'))
                   /\ dict_get "id" (serialize_doc d') = Some (VStr (oid_str o))).
Proof.
  intros Hok Hid Hl. split; intros Hin.
  - exact (get_by_id_listed CProduct st d o (coll_ok st CProduct Hok) Hin Hid Hl).
  - exact (get_by_id_listed CBlogpost st d o (coll_ok st CBlogpost Hok) Hin Hid Hl).
Qed.

(** ** Pagination *)
Lemma firstn_add {A} (a b : nat) (m : list A) :
  firstn (a + b) m = (firstn a m ++ firstn b (skipn a m))%list.
Proof.
  revert m. induction a as [| a IH]; intros m; [reflexivity |].
  destruct m as [| x m]; cbn; [now rewrite firstn_nil | now rewrite IH].
Qed.

Lemma skip_limit_split (s a b : Z) (l : list doc) :
  (0 <= s)%Z -> (1 <= a)%Z -> (1 <= b)%Z ->
  skip_limit s (a + b) l = (skip_limit s a l ++ skip_limit (s + a) b l)%list.
Proof.
  intros Hs Ha Hb. unfold skip_limit.
  replace (a + b =? 0)%Z with false by (symmetry; apply Z.eqb_neq; lia).
  replace (a =? 0)%Z with false by (symmetry; apply Z.eqb_neq; lia).
  replace (b =? 0)%Z with false by (symmetry; apply Z.eqb_neq; lia).
  rewrite !Z.abs_eq by lia.
  rewrite Z2Nat.inj_add, firstn_add, skipn_skipn by lia.
  rewrite Z2Nat.inj_add by lia. f_equal. f_equal. f_equal. lia.
Qed.

Definition with_page (pq : product_query) (sk lim : Z) : product_query :=
  Build_product_query (q pq) (category pq) (min_price pq) (max_price pq) (min_rating pq)
    (featured pq) lim sk.

Lemma serialize_all_app (l1 l2 : list doc) (vs1 vs2 : list value) :
  serialize_all l1 = VList vs1 -> serialize_all l2 = VList vs2 ->
  serialize_all (l1 ++ l2) = VList (vs1 ++ vs2).
Proof.
  unfold serialize_all. intros H1 H2. injection H1 as <-. injection H2 as <-.
  now rewrite map_app.
Qed.

(** X6: pages compose.  For [skip] >= 0 and page sizes [a], [b] >= 1
    (the sizes both routes accept), the page at [skip]
    of size [a] followed by the page at [skip + a] of size [b] is the
    page at [skip] of size [a + b], on [GET /api/products] (any filter)
    and on [GET /api/blogs]; a page never has more than [limit]
    elements. *)
Theorem pages_compose (db : option store) (pq : product_query) (sk a b : Z)
  (vs1 vs2 : list value) :
  (0 <= sk)%Z -> (1 <= a)%Z -> (1 <= b)%Z ->
  (list_products db (with_page pq sk a) = ok (VList vs1) ->
   list_products db (with_page pq (sk + a) b) = ok (VList vs2) ->
   list_products db (with_page pq sk (a + b)) = ok (VList (vs1 ++ vs2))
   /\ length vs1 <= Z.to_nat a)
  /\ (list_blogs db a sk = ok (VList vs1) -> list_blogs db b (sk + a) = ok (VList vs2) ->
      list_blogs db (a + b) sk = ok (VList (vs1 ++ vs2)) /\ length vs1 <= Z.to_nat a).
Proof.
  intros Hs Ha Hb.
  assert (Hpage : forall l, serialize_all (skip_limit sk (a + b) l)
                            = VList (map (fun d => VDoc (serialize_doc d)) (skip_limit sk a l)
                                     ++ map (fun d => VDoc (serialize_doc d)) (skip_limit (sk + a) b l))
                  /\ length (map (fun d => VDoc (serialize_doc d)) (skip_limit sk a l)) <= Z.to_nat a).
  { intros l. unfold serialize_all. rewrite skip_limit_split, map_app by assumption.
    split; [reflexivity |]. rewrite length_map. unfold skip_limit.
    replace (a =? 0)%Z with false by (symmetry; apply Z.eqb_neq; lia).
    rewrite Z.abs_eq by lia. apply firstn_le_length. }
  split.
  - unfold list_products. cbn [build_filter q category min_price max_price min_rating featured with_page skip limit].
    destruct db as [st |].
    + destruct (find_docs _ (product st)) as [l |]; [| discriminate].
      intros H1 H2. injection H1 as <-. injection H2 as <-.
      destruct (Hpage l) as [-> Hl]. split; [reflexivity | exact Hl].
    + intros H1 H2. injection H1 as <-. injection H2 as <-. split; [reflexivity | cbn; lia].
  - unfold list_blogs. destruct db as [st |].
    + intros H1 H2. injection H1 as <-. injection H2 as <-.
      destruct (Hpage (sort_id_desc (blogpost st))) as [-> Hl]. split; [reflexivity | exact Hl].
    + intros H1 H2. injection H1 as <-. injection H2 as <-. split; [reflexivity | cbn; lia].
Qed.

(** ** Order of the blog listing *)
Lemma bytes_cmp_antisym (x y : list byte) : bytes_cmp y x = CompOpp (bytes_cmp x y).
Proof.
  revert y. induction x as [| a x IH]; intros [| b y]; cbn; try reflexivity.
  rewrite (Nat.compare_antisym (Byte.to_nat a)).
  destruct (Nat.compare (Byte.to_nat a) (Byte.to_nat b)); cbn; auto.
Qed.

Lemma str_cmp_antisym (x y : string) : str_cmp y x = CompOpp (str_cmp x y).
Proof.
  revert y. induction x as [| a x IH]; intros [| b y]; cbn; try reflexivity.
  rewrite (Nat.compare_antisym (nat_of_ascii a)).
  destruct (Nat.compare (nat_of_ascii a) (nat_of_ascii b)); cbn; auto.
Qed.

Lemma bson_cmp_antisym (a b : value) : bson_cmp b a = CompOpp (bson_cmp a b).
Proof.
  destruct a as [| x | x | x | [x] | x | x], b as [| y | y | y | [y] | y | y]; cbn;
    try reflexivity.
  - now destruct x, y.
  - symmetry. apply Qcompare_antisym.
  - apply str_cmp_antisym.
  - apply bytes_cmp_antisym.
Qed.

(** Consecutive posts: the first one's [_id] is not below the next one's. *)
Definition id_not_below (d e : doc) : Prop := bson_cmp (id_key d) (id_key e) <> Lt.

Lemma insert_desc_sorted (d : doc) (l : list doc) :
  Sorted id_not_below l -> Sorted id_not_below (insert_desc d l).
Proof.
  induction l as [| e r IH]; cbn [insert_desc]; intros Hs; [repeat constructor |].
  destruct (bson_cmp (id_key d) (id_key e)) eqn:E.
  - constructor; [exact Hs | constructor; unfold id_not_below; congruence].
  - apply Sorted_inv in Hs as [Hr Hh]. constructor; [now apply IH |].
    destruct r as [| f r']; cbn [insert_desc].
    + constructor. unfold id_not_below. rewrite bson_cmp_antisym, E. discriminate.
    + destruct (bson_cmp (id_key d) (id_key f)).
      * constructor. unfold id_not_below. rewrite bson_cmp_antisym, E. discriminate.
      * apply HdRel_inv in Hh. now constructor.
      * constructor. unfold id_not_below. rewrite bson_cmp_antisym, E. discriminate.
  - constructor; [exact Hs | constructor; unfold id_not_below; congruence].
Qed.

Lemma insert_desc_perm (d : doc) (l : list doc) : Permutation (insert_desc d l) (d :: l).
Proof.
  induction l as [| e r IH]; cbn [insert_desc]; [reflexivity |].
  destruct (bson_cmp (id_key d) (id_key e)); try reflexivity.
  rewrite IH. apply perm_swap.
Qed.

(** X7: [GET /api/blogs] lists the stored posts in descending [_id]
    order: its answer is a window ([skip], [limit]) of a rearrangement of
    all stored posts in which no post's [_id] is below the next one's. *)
Theorem list_blogs_sorted (st : store) (lim sk : Z) :
  exists l, Permutation l (blogpost st) /\ Sorted id_not_below l
            /\ list_blogs (Some st) lim sk = ok (serialize_all (skip_limit sk lim l)).
Proof.
  exists (sort_id_desc (blogpost st)). split; [| split; [| reflexivity]].
  - induction (blogpost st) as [| d r IH]; cbn; [reflexivity |].
    rewrite insert_desc_perm. now constructor.
  - induction (blogpost st) as [| d r IH]; cbn; [constructor |]. now apply insert_desc_sorted.
Qed.










(** ** login *)
(** The [{"email": e, "password": p}] test on a stored user. *)
Definition cred_test (p : LoginIn) (u : doc) : bool :=
  on_field (scalar_eqb (VStr (l_email p))) (dict_get "email" u)
  && on_field (scalar_eqb (VStr (l_password p))) (dict_get "password" u).

(** A stored user whose email and password, if present, are strings. *)
Definition creds_strings (u : doc) : bool :=
  match dict_get "email" u with None | Some (VStr _) => true | _ => false end
  && match dict_get "password" u with None | Some (VStr _) => true | _ => false end.

Lemma cred_filter_matches (p : LoginIn) (u : doc) :
  doc_matches [("email", VStr (l_email p)); ("password", VStr (l_password p))] u
  = Some (cred_test p u).
Proof. cbn. now rewrite andb_true_r. Qed.

Lemma cred_test_strings (p : LoginIn) (u : doc) :
  creds_strings u = true ->
  cred_test p u = true <-> dict_get "email" u = Some (VStr (l_email p))
                           /\ dict_get "password" u = Some (VStr (l_password p)).
Proof.
  unfold creds_strings, cred_test. intros H. apply andb_prop in H as [He Hp].
  destruct (dict_get "email" u) as [[] |]; try discriminate;
    destruct (dict_get "password" u) as [[] |]; try discriminate; cbn;
    rewrite ?andb_true_iff, ?String.eqb_eq; split;
    try (intros H; discriminate); try (intros [H1 H2]; discriminate);
    intros [H1 H2]; split; congruence.
Qed.

(** X9: with a store whose users have string emails and passwords,
    [login] answers 401 when no stored user has exactly that email and
    password, and otherwise answers 200 with the token and the first
    such user, serialized. *)
Theorem login_outcomes (st : store) (p : LoginIn) :
  forallb creds_strings (user st) = true ->
  ((forall u, In u (user st) -> dict_get "email" u = Some (VStr (l_email p)) ->
              dict_get "password" u <> Some (VStr (l_password p))) ->
   login (Some st) p = http_error 401 "Invalid credentials")
  /\ (forall pre u post, user st = (pre ++ u :: post)%list ->
        (forall u', In u' pre -> dict_get "email" u' = Some (VStr (l_email p)) ->
                    dict_get "password" u' <> Some (VStr (l_password p))) ->
        dict_get "email" u = Some (VStr (l_email p)) ->
        dict_get "password" u = Some (VStr (l_password p)) ->
        login (Some st) p = ok (VDoc [("status", VStr "ok"); ("token", VStr "demo-token");
                                      ("user", VDoc (serialize_doc u))])).
Proof.
  intros Hok. rewrite forallb_forall in Hok.
  assert (Hf : find_one [("email", VStr (l_email p)); ("password", VStr (l_password p))] (user st)
               = match filter (cred_test p) (user st) with
                 | [] => Some None | x :: _ => Some (Some x) end).
  { unfold find_one. rewrite (find_docs_total _ _ (cred_test p)) by (intros; apply cred_filter_matches).
    now destruct (filter (cred_test p) (user st)). }
  unfold login. rewrite Hf. split.
  - intros Hno. replace (filter (cred_test p) (user st)) with (@nil doc); [reflexivity |].
    symmetry. rewrite (filter_ext_in _ (fun _ => false)); [apply filter_false |].
    intros u Hu. destruct (cred_test p u) eqn:E; [| reflexivity].
    apply (cred_test_strings p u (Hok u Hu)) in E as [E1 E2]. exfalso. exact (Hno u Hu E1 E2).
  - intros pre u post Heq Hpre He Hp. rewrite Heq, filter_app.
    replace (filter (cred_test p) pre) with (@nil doc).
    + cbn [app filter]. replace (cred_test p u) with true.
      * destruct u as [| kv r]; [discriminate | reflexivity].
      * symmetry. apply cred_test_strings; [apply Hok; rewrite Heq; apply in_or_app; right; now left |].
        split; assumption.
    + symmetry. rewrite (filter_ext_in _ (fun _ => false)); [apply filter_false |].
      intros u' Hu'. destruct (cred_test p u') eqn:E; [| reflexivity].
      apply (cred_test_strings p u') in E as [E1 E2].
      * exfalso. exact (Hpre u' Hu' E1 E2).
      * apply Hok. rewrite Heq. apply in_or_app. now left.
Qed.

(** ** Seeding *)
Lemma insert_many_coll (c : coll) (ds : list doc) (st : store) :
  length (get_coll c (insert_many c ds st)) = length (get_coll c st) + length ds
  /\ (forall c', c' <> c -> get_coll c' (insert_many c ds st) = get_coll c' st).
Proof.
  revert st. induction ds as [| d r IH]; intros st; cbn [insert_many length].
  - split; [lia | reflexivity].
  - destruct (IH (snd (insert_one c d st))) as [H1 H2]. split.
    + rewrite H1. unfold insert_one.
      destruct (dict_get "_id" d); destruct c; cbn; rewrite ?length_app; cbn; lia.
    + intros c' Hc. rewrite H2 by exact Hc. unfold insert_one.
      destruct (dict_get "_id" d); destruct c, c'; cbn; congruence.
Qed.

Lemma ite_insert_many (b : bool) (c : coll) (ds : list doc) (st : store) (c' : coll) :
  c' <> c -> get_coll c' (if b then insert_many c ds st else st) = get_coll c' st.
Proof. intros H. destruct b; [now apply insert_many_coll | reflexivity]. Qed.

(** X10: [seed_database] is idempotent: a second run adds nothing.  It
    leaves a non-empty product or blog collection unchanged and never
    touches orders, contacts or users. *)
Theorem seed_database_idempotent (db : option store) :
  seed_database (seed_database db) = seed_database db
  /\ (forall st st', db = Some st -> seed_database db = Some st' ->
        (product st <> [] -> product st' = product st)
        /\ (blogpost st <> [] -> blogpost st' = blogpost st)
        /\ get_coll COrder st' = get_coll COrder st /\ contact st' = contact st
        /\ user st' = user st).
Proof.
  assert (Hstep : forall st, seed_database (Some st)
            = Some (let st := if Nat.eqb (length (product st)) 0
                              then insert_many CProduct sample_products st else st in
                    if Nat.eqb (length (blogpost st)) 0
                    then insert_many CBlogpost sample_posts st else st)) by reflexivity.
  split.
  - destruct db as [st |]; [| reflexivity]. rewrite (Hstep st). cbv zeta.
    set (st1 := if Nat.eqb (length (product st)) 0 then insert_many CProduct sample_products st else st).
    assert (Hp1 : length (product st1) <> 0).
    { subst st1. destruct (Nat.eqb_spec (length (product st)) 0) as [E | E]; [| exact E].
      pose proof (proj1 (insert_many_coll CProduct sample_products st)) as H. cbn [get_coll] in H.
      rewrite H. cbn. lia. }
    set (st2 := if Nat.eqb (length (blogpost st1)) 0 then insert_many CBlogpost sample_posts st1 else st1).
    assert (Hp2 : length (product st2) <> 0 /\ length (blogpost st2) <> 0).
    { subst st2. destruct (Nat.eqb_spec (length (blogpost st1)) 0) as [E | E]; [| split; assumption].
      destruct (insert_many_coll CBlogpost sample_posts st1) as [H1 H2]. cbn [get_coll] in H1.
      rewrite H1. specialize (H2 CProduct ltac:(discriminate)). cbn [get_coll] in H2.
      rewrite H2. cbn. lia. }
    rewrite (Hstep st2). cbv zeta. destruct Hp2 as [Hp Hb].
    apply Nat.eqb_neq in Hp. rewrite Hp. apply Nat.eqb_neq in Hb. rewrite Hb. reflexivity.
  - intros st st' -> H. rewrite Hstep in H.
    assert (Hs : forall x y : store, Some x = Some y -> x = y) by congruence.
    apply Hs in H. subst st'. cbv zeta.
    set (st1 := if Nat.eqb (length (product st)) 0 then insert_many CProduct sample_products st else st).
    assert (H1 : forall c, c <> CProduct -> get_coll c st1 = get_coll c st)
      by (intros c Hc; subst st1; now apply ite_insert_many).
    set (st2 := if Nat.eqb (length (blogpost st1)) 0 then insert_many CBlogpost sample_posts st1 else st1).
    assert (H2 : forall c, c <> CBlogpost -> get_coll c st2 = get_coll c st1)
      by (intros c Hc; subst st2; now apply ite_insert_many).
    change (product st2) with (get_coll CProduct st2). change (blogpost st2) with (get_coll CBlogpost st2).
    change (contact st2) with (get_coll CContact st2). change (user st2) with (get_coll CUser st2).
    rewrite H2, (H2 COrder), (H2 CContact), (H2 CUser), (H1 COrder), (H1 CContact), (H1 CUser)
      by discriminate.
    split; [| split; [| repeat split; reflexivity]].
    + intros Hne. subst st1. cbn [get_coll].
      destruct (Nat.eqb_spec (length (product st)) 0) as [E | E]; [| reflexivity].
      destruct (product st); [congruence | discriminate].
    + intros Hne. subst st2. assert (Hb : blogpost st1 = blogpost st) by exact (H1 CBlogpost ltac:(discriminate)).
      rewrite Hb. destruct (Nat.eqb_spec (length (blogpost st)) 0) as [E | E]; [| exact Hb].
      destruct (blogpost st); [congruence | discriminate].
Qed.

(** ** Dumped fields validate back *)
Lemma p_int_inject (z : Z) : p_int (Some (VNum (inject_Z z))) = Some z.
Proof. cbn. rewrite Z.mod_1_r, Z.div_1_r. reflexivity. Qed.

Lemma p_opt_str_dump (x : option string) : p_opt_str (Some (opt_str_value x)) = Some x.
Proof. now destruct x. Qed.

(** ** The collection schemas *)
Lemma p_str_list_dump (l : list string) : p_str_list (Some (VList (map VStr l))) = Some l.
Proof. induction l as [| x r IH]; [reflexivity |]. cbn in *. now rewrite IH. Qed.

(** The [ge]/[le] bounds of [Product]. *)
Definition product_bounds (p : Product) : bool :=
  Qle_bool 0 (prod_price p) && (0 <=? prod_stock p)%Z
  && Qle_bool 0 (prod_rating p) && Qle_bool (prod_rating p) 5.

(** X12: [Product] validation: every validated product satisfies the
    bounds (price >= 0, stock >= 0, 0 <= rating <= 5); a product within
    them survives [model_dump()] and validation unchanged; and a body
    with only title, description, price and category gets stock 0,
    rating 4.5, no images, no thumbnail and featured false. *)
Theorem product_schema (p : Product) (v : value) (t de ca : string) (pr : Q) :
  (product_bounds p = true -> parse_product (VDoc (product_dump p)) = Some p)
  /\ (forall p', parse_product v = Some p' -> product_bounds p' = true)
  /\ (Qle_bool 0 pr = true ->
      parse_product (VDoc [("title", VStr t); ("description", VStr de); ("price", VNum pr);
                           ("category", VStr ca)])
      = Some (Build_Product t de pr ca 0 (45 # 10) [] None false)).
Proof.
  split; [| split].
  - destruct p as [ti d pri c sto ra im th fe]. unfold product_bounds. cbn [prod_price prod_stock prod_rating].
    intros H. repeat rewrite andb_true_iff in H. destruct H as [[[H1 H2] H3] H4].
    unfold parse_product. cbn [as_doc product_dump dict_get String.eqb Ascii.eqb Bool.eqb andb].
    cbn [p_str p_float prod_title prod_description prod_price prod_category prod_stock prod_rating
         prod_images prod_thumbnail prod_featured]. rewrite H1. cbn [field_check]. unfold p_int_default. rewrite p_int_inject.
    rewrite H2. cbn [field_check p_float_default]. rewrite H3, H4. cbn [andb field_check].
    unfold p_str_list_default. rewrite p_str_list_dump, p_opt_str_dump. reflexivity.
  - intros p' H. unfold parse_product in H.
    destruct (as_doc v) as [d |]; [| discriminate].
    destruct (p_str (dict_get "title" d)); [| discriminate].
    destruct (p_str (dict_get "description" d)); [| discriminate].
    destruct (p_float (dict_get "price" d)) as [pri |]; [| discriminate].
    destruct (Qle_bool 0 pri) eqn:E1; [| discriminate]. cbn [field_check] in H.
    destruct (p_str (dict_get "category" d)); [| discriminate].
    destruct (p_int_default (dict_get "stock" d) 0) as [sto |]; [| discriminate].
    destruct (0 <=? sto)%Z eqn:E2; [| discriminate]. cbn [field_check] in H.
    destruct (p_float_default (dict_get "rating" d) (45 # 10)) as [ra |]; [| discriminate].
    destruct (Qle_bool 0 ra && Qle_bool ra 5) eqn:E3; [| discriminate]. cbn [field_check] in H.
    destruct (p_str_list_default (dict_get "images" d)); [| discriminate].
    destruct (p_opt_str (dict_get "thumbnail" d)); [| discriminate].
    destruct (p_bool_default (dict_get "featured" d) false); [| discriminate].
    injection H as <-. unfold product_bounds. cbn. now rewrite E1, E2, <- andb_assoc, E3.
  - intros H. unfold parse_product. cbn [as_doc dict_get String.eqb Ascii.eqb Bool.eqb andb p_str p_float].
    rewrite H. reflexivity.
Qed.

(** X13: [BlogPost] survives [model_dump()] and validation unchanged,
    and a post with only title, excerpt and content gets no thumbnail,
    author ["Admin"] and no tags. *)
Theorem blogpost_schema (b : BlogPost) (t ex co : string) :
  parse_blogpost (VDoc (blogpost_dump b)) = Some b
  /\ parse_blogpost (VDoc [("title", VStr t); ("excerpt", VStr ex); ("content", VStr co)])
     = Some (Build_BlogPost t ex co None "Admin" []).
Proof.
  split.
  - destruct b as [ti e c th au ta]. unfold parse_blogpost.
    cbn [as_doc blogpost_dump dict_get String.eqb Ascii.eqb Bool.eqb andb p_str].
    rewrite p_opt_str_dump. cbn [p_str_default]. unfold p_str_list_default. now rewrite p_str_list_dump.
  - reflexivity.
Qed.

(** ** Witnesses of the properties with hypotheses *)

Lemma oid_text_roundtrip_witness :
  length (oid_bytes (oid_of_nat 42)) = 12
  /\ parse_oid (oid_str (oid_of_nat 42)) = Some (oid_of_nat 42).
Proof.
  split; [reflexivity |].
  exact (proj1 (proj2 (oid_text_roundtrip (oid_of_nat 42) eq_refl))).
Defined.

Lemma listed_id_lookup_witness :
  exists d', get_product (Some seeded) (oid_str (oid_of_nat 0)) = ok (VDoc (serialize_doc d'))
             /\ dict_get "title" d' = Some (VStr "Glass Card Pro").
Proof.
  destruct (proj2 (proj1 (listed_id_lookup seeded (hd [] (product seeded)) (oid_of_nat 0)
                            seeded_store_ok eq_refl eq_refl) (or_introl eq_refl)))
    as [d' [Hin [Hid [Hget _]]]].
  exists d'. split; [exact Hget |].
  vm_compute in Hin. destruct Hin as [<- | [<- | [<- | []]]]; vm_compute in Hid;
    try discriminate; reflexivity.
Defined.

Definition listing (r : response) : list value :=
  match r with Resp _ (VList vs) => vs | _ => [] end.

Lemma pages_compose_witness :
  list_products (Some seeded) (with_page default_query 0 3)
  = ok (VList (listing (list_products (Some seeded) (with_page default_query 0 1))
               ++ listing (list_products (Some seeded) (with_page default_query 1 2)))).
Proof.
  apply (proj1 (pages_compose (Some seeded) default_query 0 1 2 _ _ ltac:(lia) ltac:(lia) ltac:(lia)));
    vm_compute; reflexivity.
Defined.


Definition one_user : store :=
  set_coll CUser [[("_id", VOid (oid_of_nat 0)); ("name", VStr "A"); ("email", VStr "a@x.com");
                   ("password", VStr "p")]] empty_store.

Lemma login_outcomes_witness :
  login (Some one_user) (Build_LoginIn "a@x.com" "q") = http_error 401 "Invalid credentials"
  /\ login (Some one_user) (Build_LoginIn "a@x.com" "p")
     = ok (VDoc [("status", VStr "ok"); ("token", VStr "demo-token");
                 ("user", VDoc (serialize_doc (hd [] (user one_user))))]).
Proof.
  split.
  - apply (proj1 (login_outcomes one_user (Build_LoginIn "a@x.com" "q") eq_refl)).
    intros u [<- | []] _. vm_compute. discriminate.
  - apply (proj2 (login_outcomes one_user (Build_LoginIn "a@x.com" "p") eq_refl) [] _ []);
      [reflexivity | intros u [] | reflexivity | reflexivity].
Defined.

Lemma seed_database_idempotent_witness :
  seed_database (Some seeded) = Some seeded /\ product seeded = product seeded.
Proof.
  assert (H : seed_database (Some empty_store) = Some seeded) by (vm_compute; reflexivity).
  assert (H2 := proj1 (seed_database_idempotent (Some empty_store))). rewrite H in H2.
  split; [exact H2 |].
  apply (proj2 (seed_database_idempotent (Some seeded)) seeded seeded eq_refl H2).
  vm_compute. discriminate.
Defined.

Definition glass_card : Product :=
  match parse_product (VDoc (hd [] sample_products)) with
  | Some p => p
  | None => Build_Product "" "" 0 "" 0 0 [] None false
  end.

Lemma product_schema_witness :
  parse_product (VDoc (hd [] sample_products)) = Some glass_card
  /\ product_dump glass_card = hd [] sample_products
  /\ parse_product (VDoc (product_dump glass_card)) = Some glass_card.
Proof.
  split; [vm_compute; reflexivity | split; [vm_compute; reflexivity |]].
  apply (proj1 (product_schema glass_card VNull "" "" "" 0)). vm_compute. reflexivity.
Defined.
